(** * cfImport: the conditional-formatting rule transformer of [cfImport.py]

    A shallow embedding of the pure core of [cfImport.py] (colour
    resolution, column arithmetic, rule-row parsing and the rule application
    loop of [apply_cf_rules]) and the properties of its specification.

    Conventions of the embedding:
    - a Python [str] is a [string]; its characters are read as the code
      points U+0000..U+00FF;
    - a Python [int] is a [Z];
    - a worksheet cell read with [values_only=True] is a [value]; float and
      date cells are outside the model;
    - a Python exception is the [Raise] outcome of the [res] monad;
    - the Streamlit calls that only display something ([st.success],
      [st.info], [st.warning], the progress bar and the status text) do not
      change what [apply_cf_rules] returns and are left out; [st.error]
      followed by [return None] is the [Reported] outcome. *)

From Stdlib Require Import ZArith List String Ascii Bool Lia.
From Stdlib Require Import DecimalString.
Import ListNotations.

Open Scope string_scope.
Open Scope Z_scope.

(** ** Python values and exceptions *)

Inductive value : Type :=
| VNone
| VStr (s : string)
| VInt (n : Z)
| VBool (b : bool).

Inductive exn : Type :=
| IndexError
| AttributeError
| TypeError
| ValueError.

Inductive res (A : Type) : Type :=
| Ok (a : A)
| Raise (e : exn).

Arguments Ok {A} a.
Arguments Raise {A} e.

Definition bind {A B : Type} (c : res A) (k : A -> res B) : res B :=
  match c with
  | Ok a => k a
  | Raise e => Raise e
  end.

Declare Scope py_scope.
Delimit Scope py_scope with py.
Notation "x <- c ;; k" := (bind c (fun x => k))
  (at level 61, c at next level, right associativity) : py_scope.
Open Scope py_scope.

(** [try: ... except: return d] *)
Definition try_except {A : Type} (c : res A) (d : A) : A :=
  match c with
  | Ok a => a
  | Raise _ => d
  end.

(** Truth value of a Python object in a condition. *)
Definition truthy (v : value) : bool :=
  match v with
  | VNone => false
  | VStr s => negb (String.eqb s "")
  | VInt n => negb (n =? 0)
  | VBool b => b
  end.

(** [a == b] on cell values; [True == 1] and [False == 0] in Python. *)
Definition int_of_bool (b : bool) : Z := if b then 1 else 0.

Definition py_eq (a b : value) : bool :=
  match a, b with
  | VNone, VNone => true
  | VStr s, VStr t => (s =? t)%string
  | VInt n, VInt m => n =? m
  | VBool x, VBool y => Bool.eqb x y
  | VInt n, VBool y => n =? int_of_bool y
  | VBool x, VInt m => int_of_bool x =? m
  | _, _ => false
  end.

(** ** String primitives of Python used by the program *)

Module Py.

Definition ord (c : ascii) : Z := Z.of_N (N_of_ascii c).

(** [str.isspace] on one character, for the code points below 256. *)
Definition isspace (c : ascii) : bool :=
  let n := ord c in
  ((9 <=? n) && (n <=? 13)) || ((28 <=? n) && (n <=? 32))
  || (n =? 133) || (n =? 160).

Fixpoint lstrip (s : string) : string :=
  match s with
  | EmptyString => EmptyString
  | String c s' => if isspace c then lstrip s' else s
  end.

Fixpoint rstrip (s : string) : string :=
  match s with
  | EmptyString => EmptyString
  | String c s' =>
      let r := rstrip s' in
      if isspace c && (r =? "")%string then EmptyString else String c r
  end.

(** [s.strip()] *)
Definition strip (s : string) : string := rstrip (lstrip s).

(** [s.split(sep)] for a one-character [sep]: the first part and the
    others; the result of [split] is never empty. *)
Fixpoint split_on (sep : ascii) (s : string) : string * list string :=
  match s with
  | EmptyString => (EmptyString, [])
  | String c s' =>
      let (h, t) := split_on sep s' in
      if Ascii.eqb c sep then (EmptyString, h :: t) else (String c h, t)
  end.

Definition split (sep : ascii) (s : string) : list string :=
  let (h, t) := split_on sep s in h :: t.

(** [s.replace(old, new)] for a non-empty [old]: occurrences are replaced
    from the left and do not overlap. [skip] counts the characters of a
    matched occurrence that are still to be passed over. *)
Fixpoint replace_from (old new : string) (skip : nat) (s : string) : string :=
  match s with
  | EmptyString => EmptyString
  | String c s' =>
      match skip with
      | S k => replace_from old new k s'
      | O =>
          if prefix old s
          then new ++ replace_from old new (Nat.pred (String.length old)) s'
          else String c (replace_from old new O s')
      end
  end.

Definition replace (old new s : string) : string := replace_from old new O s.

(** [int(s)] for a [str]: surrounding white space is dropped, one sign is
    allowed, then decimal digits, where single underscores may separate
    digits. Anything else raises [ValueError]. (The interpreter's limit on
    the number of digits is not modelled.) *)
Definition isdigit (c : ascii) : bool := (48 <=? ord c) && (ord c <=? 57).

Fixpoint digits (acc : Z) (after_digit : bool) (s : string) : option Z :=
  match s with
  | EmptyString => if after_digit then Some acc else None
  | String c s' =>
      if isdigit c then digits (10 * acc + (ord c - 48)) true s'
      else if Ascii.eqb c "_"
           then (if after_digit then digits acc false s' else None)
           else None
  end.

Definition int (s : string) : res Z :=
  let body :=
    match strip s with
    | String "-" t => option_map Z.opp (digits 0 false t)
    | String "+" t => digits 0 false t
    | t => digits 0 false t
    end in
  match body with
  | Some n => Ok n
  | None => Raise ValueError
  end.

(** [str(n)] for an [int]. *)
Definition str_of_int (n : Z) : string := NilZero.string_of_int (Z.to_int n).

(** Upper-case hexadecimal digits of a natural number. *)
Fixpoint hex_upper (d : Hexadecimal.uint) : string :=
  match d with
  | Hexadecimal.Nil => EmptyString
  | Hexadecimal.D0 d => String "0" (hex_upper d)
  | Hexadecimal.D1 d => String "1" (hex_upper d)
  | Hexadecimal.D2 d => String "2" (hex_upper d)
  | Hexadecimal.D3 d => String "3" (hex_upper d)
  | Hexadecimal.D4 d => String "4" (hex_upper d)
  | Hexadecimal.D5 d => String "5" (hex_upper d)
  | Hexadecimal.D6 d => String "6" (hex_upper d)
  | Hexadecimal.D7 d => String "7" (hex_upper d)
  | Hexadecimal.D8 d => String "8" (hex_upper d)
  | Hexadecimal.D9 d => String "9" (hex_upper d)
  | Hexadecimal.Da d => String "A" (hex_upper d)
  | Hexadecimal.Db d => String "B" (hex_upper d)
  | Hexadecimal.Dc d => String "C" (hex_upper d)
  | Hexadecimal.Dd d => String "D" (hex_upper d)
  | Hexadecimal.De d => String "E" (hex_upper d)
  | Hexadecimal.Df d => String "F" (hex_upper d)
  end.

Definition zfill (width : nat) (s : string) : string :=
  String.concat "" (repeat "0" (width - String.length s)) ++ s.

(** [f"{n:02X}"]: upper-case hexadecimal, a minus sign for a negative
    number, zeros after the sign up to a total width of two. *)
Definition format_02X (n : Z) : string :=
  let ds := hex_upper (N.to_hex_uint (Z.abs_N n)) in
  if n <? 0 then String "-" (zfill 1 ds) else zfill 2 ds.

(** [f"{v}"] / [str(v)] on a cell value. *)
Definition str (v : value) : string :=
  match v with
  | VNone => "None"
  | VStr s => s
  | VInt n => str_of_int n
  | VBool true => "True"
  | VBool false => "False"
  end.

End Py.

(** ** Colour resolution *)

(** [v.strip()]: only a [str] has the method. *)
Definition strip_method (v : value) : res string :=
  match v with
  | VStr s => Ok (Py.strip s)
  | _ => Raise AttributeError
  end.

(** [v.replace(old, new)]: only a [str] has the method. *)
Definition replace_method (v : value) (old new : string) : res string :=
  match v with
  | VStr s => Ok (Py.replace old new s)
  | _ => Raise AttributeError
  end.

(** The body of the [try] block of [parse_rgb]:
    [r, g, b = [int(p.strip()) for p in parts]] and the formatted result. *)
Definition rgb_of_parts (p1 p2 p3 : string) : res string :=
  r <- Py.int (Py.strip p1) ;;
  g <- Py.int (Py.strip p2) ;;
  b <- Py.int (Py.strip p3) ;;
  Ok (Py.format_02X r ++ Py.format_02X g ++ Py.format_02X b).

Definition parse_rgb (rgb_string : value) : res (option string) :=
  if negb (truthy rgb_string) then Ok None
  else
    stripped <- strip_method rgb_string ;;
    if (stripped =? "")%string then Ok None
    else
      quoteless <- replace_method rgb_string "'" "" ;;
      let cleaned := Py.strip quoteless in
      match Py.split "," cleaned with
      | [p1; p2; p3] => Ok (try_except (hex <- rgb_of_parts p1 p2 p3 ;; Ok (Some hex)) None)
      | _ => Ok None
      end.

Definition color_map : list (string * string) :=
  [ ("Aqua", "00FFFF"); ("Black", "000000"); ("Blue", "0000FF"); ("BlueGray", "666699");
    ("BrightGreen", "00FF00"); ("Brown", "993300"); ("DarkBlue", "000080"); ("DarkGreen", "003300");
    ("DarkRed", "800000"); ("DarkYellow", "808000"); ("DarkTeal", "003366"); ("Gold", "FFC000");
    ("Green", "008000"); ("Gray25", "C0C0C0"); ("Gray40", "969696"); ("Gray50", "808080");
    ("Gray80", "333333"); ("Grey", "808080"); ("Gray", "808080"); ("Indigo", "333399");
    ("Lavender", "CC99FF"); ("LightBlue", "3366FF"); ("LightGray", "C0C0C0"); ("LightGreen", "CCFFCC");
    ("LightOrange", "FF9900"); ("LightTurquoise", "CCFFFF"); ("LightYellow", "FFFF99");
    ("Lime", "99CC00"); ("OliveGreen", "333300"); ("Orange", "FF6600"); ("PaleBlue", "99CCFF");
    ("Pink", "FF00FF"); ("Plum", "993366"); ("Red", "FF0000"); ("Rose", "FF99CC");
    ("SeaGreen", "339966"); ("SkyBlue", "00CCFF"); ("Tan", "FFCC99"); ("Teal", "008080");
    ("Turquoise", "00FFFF"); ("Violet", "800080"); ("White", "FFFFFF"); ("Yellow", "FFFF00") ].

(** [d.get(k)] on a dictionary with [str] keys. *)
Fixpoint dict_get (d : list (string * string)) (k : string) : option string :=
  match d with
  | [] => None
  | (k', v) :: d' => if (k' =? k)%string then Some v else dict_get d' k
  end.

Definition color_name_to_hex (color_name : value) : option string :=
  match color_name with
  | VStr s => dict_get color_map s
  | _ => None
  end.

(** [v in l] on a list of values. *)
Definition py_in (v : value) (l : list value) : bool := existsb (py_eq v) l.

(** [if h:] on an optional [str]. *)
Definition some_nonempty (h : option string) : bool :=
  match h with
  | Some s => negb (s =? "")%string
  | None => false
  end.

(** The second [if] of [get_color_hex] and the final [return None]. *)
Definition color_by_name (color_name : value) : res (option string) :=
  named <-
    (if truthy color_name
     then s <- strip_method color_name ;;
          Ok (negb (s =? "")%string
              && negb (py_in color_name [VStr "RGB"; VStr "NoColor"; VStr ""]))
     else Ok false) ;;
  if named
  then let hex_color := color_name_to_hex color_name in
       if some_nonempty hex_color then Ok hex_color else Ok None
  else Ok None.

Definition get_color_hex (color_name rgb_string : value) : res (option string) :=
  given <-
    (if truthy rgb_string
     then s <- strip_method rgb_string ;; Ok (negb (s =? "")%string)
     else Ok false) ;;
  if given
  then hex_color <- parse_rgb rgb_string ;;
       if some_nonempty hex_color then Ok hex_color else color_by_name color_name
  else color_by_name color_name.

(** ** Column letters *)

Definition column_letter_to_index (col : string) : Z :=
  fold_left (fun index char => index * 26 + (Py.ord char - Py.ord "A" + 1))
            (list_ascii_of_string col) 0.

(** ** Rule records *)

Record rule : Type := {
  start_col : value;
  end_col : value;
  formula : value;
  stop_if_true : bool;
  bg_color : value;
  bg_rgb : value;
  font_color : value;
  font_rgb : value;
  number_format : value;
  worksheet : value
}.

(** [row[i]] on a tuple. *)
Definition item (row : list value) (i : nat) : res value :=
  match nth_error row i with
  | Some v => Ok v
  | None => Raise IndexError
  end.

(** [row[i] if len(row) > i else d] *)
Definition item_or (row : list value) (i : nat) (d : value) : res value :=
  if (i <? List.length row)%nat then item row i else Ok d.

(** The dictionary built for a row whose start column exists. *)
Definition rule_of_row (row : list value) : res rule :=
  c0 <- item row 0 ;;
  c1 <- item row 1 ;;
  c2 <- (t <- item row 2 ;; if truthy t then item row 2 else Ok (VStr "")) ;;
  c3 <- (t <- item row 3 ;;
         if truthy t then y <- item row 3 ;; Ok (py_eq y (VStr "Y")) else Ok false) ;;
  c4 <- item_or row 4 (VStr "") ;;
  c5 <- item_or row 5 (VStr "") ;;
  c6 <- item_or row 6 (VStr "") ;;
  c7 <- item_or row 7 (VStr "") ;;
  c8 <- item_or row 8 (VStr "") ;;
  c9 <- item_or row 9 (VStr "Sheet1") ;;
  Ok {| start_col := c0; end_col := c1; formula := c2; stop_if_true := c3;
        bg_color := c4; bg_rgb := c5; font_color := c6; font_rgb := c7;
        number_format := c8; worksheet := c9 |}.

(** One turn of the loop over [rules_sheet.iter_rows(min_row=2,
    values_only=True)]: [rules] is the list built so far. *)
Definition read_row (rules : list rule) (row : list value) : res (list rule) :=
  c0 <- item row 0 ;;
  if truthy c0
  then r <- rule_of_row row ;; Ok (rules ++ [r])%list
  else Ok rules.

Fixpoint read_rows (rules : list rule) (rows : list (list value)) : res (list rule) :=
  match rows with
  | [] => Ok rules
  | row :: rows' => rules' <- read_row rules row ;; read_rows rules' rows'
  end.

(** ** Workbooks

    [openpyxl] is an external library. A workbook is the ordered list of its
    worksheets; of a worksheet the model keeps the title and the
    conditional-formatting rules in the order of the [add] calls, each with
    the range it was added under. *)

(** [Rule(type='expression', dxf=DifferentialStyle(fill=..., font=...),
    formula=[formula], stopIfTrue=...)]: the colours are the ones given to
    [Color(rgb=...)], absent when the fill or the font is [None]. *)
Record cf_rule : Type := {
  cf_formula : string;
  cf_stopIfTrue : bool;
  cf_fill : option string;
  cf_font : option string
}.

Record sheet : Type := {
  title : string;
  conditional_formatting : list (string * cf_rule)
}.

Definition workbook : Type := list sheet.

(** What the program relies on from the library without deciding it:
    which colour strings [Color(rgb=...)] accepts, which range strings
    [conditional_formatting.add] accepts (both raise otherwise), and the
    title under which [create_sheet] files a new sheet next to the existing
    titles (or the exception it raises). *)
Class Openpyxl : Type := {
  color_ok : string -> bool;
  range_ok : string -> bool;
  new_title : list string -> value -> res string
}.

Definition sheetnames (wb : workbook) : list string := map title wb.

(** Position of the sheet [wb[name]], the first one whose title equals
    [name]; [None] when [name not in wb.sheetnames]. *)
Fixpoint sheet_index (name : value) (wb : workbook) : option nat :=
  match wb with
  | [] => None
  | s :: wb' =>
      if py_eq (VStr (title s)) name then Some O
      else option_map S (sheet_index name wb')
  end.

(** A worksheet object is shared with its workbook: a change made through
    [ws] is a change of the sheet at its position. *)
Fixpoint alter_sheet (f : sheet -> sheet) (i : nat) (wb : workbook) : workbook :=
  match wb, i with
  | [], _ => []
  | s :: wb', O => f s :: wb'
  | s :: wb', S j => s :: alter_sheet f j wb'
  end.

(** [ws.conditional_formatting._cf_rules.clear()] *)
Definition clear_rules (s : sheet) : sheet :=
  {| title := title s; conditional_formatting := [] |}.

Definition append_rule (range_string : string) (r : cf_rule) (s : sheet) : sheet :=
  {| title := title s;
     conditional_formatting := (conditional_formatting s ++ [(range_string, r)])%list |}.

(** ** Grouping by worksheet *)

(** [rules_by_sheet]: a dictionary in insertion order. *)
Fixpoint group_add (sheet_name : value) (r : rule)
         (groups : list (value * list rule)) : list (value * list rule) :=
  match groups with
  | [] => [(sheet_name, [r])]
  | (k, rs) :: groups' =>
      if py_eq k sheet_name then (k, (rs ++ [r])%list) :: groups'
      else (k, rs) :: group_add sheet_name r groups'
  end.

Definition sheet_name_of (r : rule) : value :=
  if truthy (worksheet r) then worksheet r else VStr "Sheet1".

Definition group_rules (rules : list rule) : list (value * list rule) :=
  fold_left (fun groups r => group_add (sheet_name_of r) r groups) rules [].

(** ** The application loop *)

(** The variables the two nested loops of [apply_cf_rules] update. *)
Record loop_state : Type := {
  wb_new : workbook;
  rules_applied : nat;
  rules_skipped : nat
}.

Definition skip (st : loop_state) : loop_state :=
  {| wb_new := wb_new st;
     rules_applied := rules_applied st;
     rules_skipped := S (rules_skipped st) |}.

Inductive st_error : Type :=
| MissingRowSpecification   (* "Please enter either a Row Number or First Row!" *)
| MissingSheetError         (* "'CF Rules' sheet not found in the uploaded file!" *)
| EmptyRuleSetError         (* "No rules found in the CF Rules sheet!" *)
| MissingTargetWorkbook.    (* "Please upload a target file to update!" *)

Inductive outcome (A : Type) : Type :=
| Returned (a : A)
| Reported (e : st_error)
| Crashed (e : exn).

Arguments Returned {A} a.
Arguments Reported {A} e.
Arguments Crashed {A} e.

(** The tuple [apply_cf_rules] returns; [output] is the saved workbook. *)
Record result : Type := {
  output : workbook;
  res_rules_by_sheet : list (value * list rule);
  res_rules : list rule;
  res_rules_applied : nat;
  res_rules_skipped : nat;
  res_row_number : string;
  res_start_row : Z;
  res_end_row : Z
}.

Section Apply.

Context {lib : Openpyxl}.

(** [Color(rgb=hex)] *)
Definition Color (hex : string) : res string :=
  if color_ok hex then Ok hex else Raise ValueError.

(** [PatternFill(bgColor=Color(rgb=h)) if h else None], and the same for
    [Font]. *)
Definition style_color (h : option string) : res (option string) :=
  if some_nonempty h
  then match h with
       | Some hex => c <- Color hex ;; Ok (Some c)
       | None => Ok None
       end
  else Ok None.

(** [ws.conditional_formatting.add(range_string, cf_rule)] *)
Definition add (ws : nat) (range_string : string) (r : cf_rule)
           (wb : workbook) : res workbook :=
  if range_ok range_string
  then Ok (alter_sheet (append_rule range_string r) ws wb)
  else Raise ValueError.

(** [wb.create_sheet(name)] *)
Definition create_sheet (name : value) (wb : workbook) : res (nat * workbook) :=
  t <- new_title (sheetnames wb) name ;;
  Ok (List.length wb,
      (wb ++ [{| title := t; conditional_formatting := [] |}])%list).

(** "Get or create worksheet": the position of [ws] and the workbook. *)
Definition get_or_create (sheet_name : value) (wb : workbook) : res (nat * workbook) :=
  match sheet_index sheet_name wb with
  | Some i => Ok (i, alter_sheet clear_rules i wb)
  | None => create_sheet sheet_name wb
  end.

Section Run.

Variable row_number : string.
Variables start_row end_row : Z.

(** The body of the [try] block for one rule. *)
Definition try_rule (ws : nat) (r : rule) (st : loop_state) : res loop_state :=
  formula_text <-
    (if truthy (formula r) then replace_method (formula r) "@ROW@" row_number
     else Ok "") ;;
  if (formula_text =? "")%string then Ok (skip st)
  else
    bg_hex <- get_color_hex (bg_color r) (bg_rgb r) ;;
    font_hex <- get_color_hex (font_color r) (font_rgb r) ;;
    if negb (some_nonempty bg_hex) && negb (some_nonempty font_hex)
    then Ok (skip st)
    else
      fill <- style_color bg_hex ;;
      font <- style_color font_hex ;;
      let range_string :=
        Py.str (start_col r) ++ Py.str_of_int start_row ++ ":"
        ++ Py.str (end_col r) ++ Py.str_of_int end_row in
      let cf := {| cf_formula := formula_text;
                   cf_stopIfTrue := stop_if_true r;
                   cf_fill := fill;
                   cf_font := font |} in
      wb <- add ws range_string cf (wb_new st) ;;
      Ok {| wb_new := wb;
            rules_applied := S (rules_applied st);
            rules_skipped := rules_skipped st |}.

(** One turn of [for rule in sheet_rules]: the [except] clause counts the
    rule as skipped. *)
Definition apply_rule (ws : nat) (st : loop_state) (r : rule) : loop_state :=
  try_except (try_rule ws r st) (skip st).

(** One turn of [for sheet_name, sheet_rules in rules_by_sheet.items()]. *)
Definition apply_sheet (st : loop_state) (group : value * list rule) : res loop_state :=
  let (sheet_name, sheet_rules) := group in
  p <- get_or_create sheet_name (wb_new st) ;;
  let (ws, wb) := p in
  Ok (fold_left (apply_rule ws) sheet_rules
        {| wb_new := wb;
           rules_applied := rules_applied st;
           rules_skipped := rules_skipped st |}).

Fixpoint apply_sheets (st : loop_state) (groups : list (value * list rule)) : res loop_state :=
  match groups with
  | [] => Ok st
  | g :: groups' => st' <- apply_sheet st g ;; apply_sheets st' groups'
  end.

End Run.

(** The rules workbook: its sheets by name, each with all its rows (row 1
    is the header); the target file: [None] when nothing was uploaded. *)
Definition rules_workbook : Type := list (string * list (list value)).

Fixpoint get_sheet (name : string) (wb : rules_workbook) : option (list (list value)) :=
  match wb with
  | [] => None
  | (n, rows) :: wb' => if (n =? name)%string then Some rows else get_sheet name wb'
  end.

(** [if n:] on an optional [int]. *)
Definition some_nonzero (n : option Z) : bool :=
  match n with
  | Some z => truthy (VInt z)
  | None => false
  end.

(** [if x and x.strip():] on the text of the row-number box. *)
Definition given (row_number_input : option string) : bool :=
  match row_number_input with
  | Some s => truthy (VStr s) && truthy (VStr (Py.strip s))
  | None => false
  end.

(** Lines 127 to 133: the rows the ranges span. *)
Definition row_range (first_row last_row : option Z) : Z * Z :=
  match first_row, last_row with
  | Some f, Some l => if some_nonzero first_row && some_nonzero last_row then (f, l) else (1, 1000)
  | _, _ => (1, 1000)
  end.

(** Lines 75 to 211 of [apply_cf_rules], once [row_number] is known. *)
Definition run_rules (row_number : string) (rules_file : rules_workbook)
           (target_file : option workbook) (first_row last_row : option Z)
           (mode : string) : outcome result :=
  match get_sheet "CF Rules" rules_file with
  | None => Reported MissingSheetError
  | Some rules_sheet =>
      match read_rows [] (tl rules_sheet) with
      | Raise e => Crashed e
      | Ok [] => Reported EmptyRuleSetError
      | Ok rules =>
          match (if (mode =? "Update Existing File")%string then target_file
                 else Some []) with
          | None => Reported MissingTargetWorkbook
          | Some wb0 =>
              let rules_by_sheet := group_rules rules in
              let (start_row, end_row) := row_range first_row last_row in
              match apply_sheets row_number start_row end_row
                      {| wb_new := wb0; rules_applied := 0; rules_skipped := 0 |}
                      rules_by_sheet with
              | Raise e => Crashed e
              | Ok st =>
                  Returned {| output := wb_new st;
                              res_rules_by_sheet := rules_by_sheet;
                              res_rules := rules;
                              res_rules_applied := rules_applied st;
                              res_rules_skipped := rules_skipped st;
                              res_row_number := row_number;
                              res_start_row := start_row;
                              res_end_row := end_row |}
              end
          end
      end
  end.

(** Lines 66 to 73: the text that replaces the placeholder. *)
Definition row_number_of (row_number_input : option string)
           (first_row : option Z) : option string :=
  if given row_number_input then option_map Py.strip row_number_input
  else if some_nonzero first_row then option_map Py.str_of_int first_row
  else None.

Definition apply_cf_rules (rules_file : rules_workbook)
           (target_file : option workbook) (row_number_input : option string)
           (first_row last_row : option Z) (mode : string) : outcome result :=
  match row_number_of row_number_input first_row with
  | Some row_number =>
      run_rules row_number rules_file target_file first_row last_row mode
  | None => Reported MissingRowSpecification
  end.

End Apply.

(** A library that accepts colours of six or eight hexadecimal digits and
    every range, and files a new sheet under the text it is given. *)
Definition hex_digit (c : ascii) : bool :=
  Py.isdigit c
  || ((65 <=? Py.ord c) && (Py.ord c <=? 70))
  || ((97 <=? Py.ord c) && (Py.ord c <=? 102)).

Definition plain_library : Openpyxl :=
  {| color_ok := fun h =>
       ((String.length h =? 6)%nat || (String.length h =? 8)%nat)
       && forallb hex_digit (list_ascii_of_string h);
     range_ok := fun _ => true;
     new_title := fun _ v =>
       match v with
       | VStr s => Ok s
       | _ => Raise TypeError
       end |}.

(** * Properties *)

(** ** Column letters *)

Definition letter_value (c : ascii) : Z := Py.ord c - 64.

Definition is_letter (c : ascii) : bool := (65 <=? Py.ord c) && (Py.ord c <=? 90).

(** A column name: one or more of the letters A to Z. *)
Definition letter_string (s : string) : Prop :=
  s <> EmptyString /\ forallb is_letter (list_ascii_of_string s) = true.

(** Positional value in base 26: the first letter weighs most. *)
Fixpoint base26 (s : string) : Z :=
  match s with
  | EmptyString => 0
  | String c s' => letter_value c * 26 ^ Z.of_nat (String.length s') + base26 s'
  end.

Lemma list_ascii_of_string_app (s t : string) :
  list_ascii_of_string (s ++ t) = (list_ascii_of_string s ++ list_ascii_of_string t)%list.
Proof.
  induction s as [|c s IH]; simpl; [reflexivity|]. now rewrite IH.
Qed.

Lemma length_list_ascii (s : string) :
  List.length (list_ascii_of_string s) = String.length s.
Proof.
  induction s as [|c s IH]; simpl; congruence.
Qed.

Definition column_step (index : Z) (char : ascii) : Z :=
  index * 26 + (Py.ord char - Py.ord "A" + 1).

Lemma column_fold_shift (l : list ascii) (acc : Z) :
  fold_left column_step l acc
  = acc * 26 ^ Z.of_nat (List.length l) + fold_left column_step l 0.
Proof.
  revert acc. induction l as [|c l IH]; intros acc.
  - simpl. lia.
  - cbn [fold_left List.length]. rewrite (IH (column_step acc c)), (IH (column_step 0 c)).
    rewrite Nat2Z.inj_succ, Z.pow_succ_r by lia.
    unfold column_step. ring.
Qed.

Lemma column_letter_to_index_cons (c : ascii) (s : string) :
  column_letter_to_index (String c s)
  = letter_value c * 26 ^ Z.of_nat (String.length s) + column_letter_to_index s.
Proof.
  unfold column_letter_to_index. cbn [list_ascii_of_string fold_left].
  change (fun index char => index * 26 + (Py.ord char - Py.ord "A" + 1)) with column_step.
  rewrite column_fold_shift, length_list_ascii.
  unfold column_step, letter_value. change (Py.ord "A") with 65. ring.
Qed.

Lemma column_letter_to_index_nonneg (s : string) :
  forallb is_letter (list_ascii_of_string s) = true -> 0 <= column_letter_to_index s.
Proof.
  induction s as [|c s IH]; intros H.
  - unfold column_letter_to_index. simpl. lia.
  - simpl in H. apply andb_prop in H. destruct H as [Hc Hs].
    rewrite column_letter_to_index_cons. specialize (IH Hs).
    unfold is_letter in Hc. apply andb_prop in Hc. destruct Hc as [H1 H2].
    apply Z.leb_le in H1, H2. unfold letter_value.
    assert (0 < 26 ^ Z.of_nat (String.length s)) by (apply Z.pow_pos_nonneg; lia).
    nia.
Qed.

(** C9: [column_letter_to_index] folds the letters from the left with
    [index = index*26 + value], where A is worth 1 and Z is worth 26; this
    is the positional value of the name in base 26, it is positive for every
    non-empty string of the letters A to Z, and A, Z, AA and AZ give 1, 26, 27
    and 52. *)
Theorem column_letter_to_index_base26 :
  (forall s c,
      column_letter_to_index (s ++ String c EmptyString)
      = column_letter_to_index s * 26 + letter_value c)
  /\ (forall c, is_letter c = true -> 1 <= letter_value c <= 26)
  /\ letter_value "A" = 1 /\ letter_value "Z" = 26
  /\ (forall s, column_letter_to_index s = base26 s)
  /\ (forall s, letter_string s -> 0 < column_letter_to_index s)
  /\ column_letter_to_index "A" = 1
  /\ column_letter_to_index "Z" = 26
  /\ column_letter_to_index "AA" = 27
  /\ column_letter_to_index "AZ" = 52.
Proof.
  repeat split; try reflexivity.
  - intros s c. unfold column_letter_to_index.
    rewrite list_ascii_of_string_app, fold_left_app. simpl.
    unfold letter_value. change (Py.ord "A") with 65. ring.
  - unfold is_letter in H. apply andb_prop in H. destruct H as [H _].
    apply Z.leb_le in H. unfold letter_value. lia.
  - unfold is_letter in H. apply andb_prop in H. destruct H as [_ H].
    apply Z.leb_le in H. unfold letter_value. lia.
  - intros s. induction s as [|c s IH]; [reflexivity|].
    rewrite column_letter_to_index_cons, IH. reflexivity.
  - intros s [Hne Hl]. destruct s as [|c s]; [congruence|].
    rewrite column_letter_to_index_cons. simpl in Hl.
    apply andb_prop in Hl. destruct Hl as [Hc Hs].
    pose proof (column_letter_to_index_nonneg s Hs).
    unfold is_letter in Hc. apply andb_prop in Hc. destruct Hc as [H1 H2].
    apply Z.leb_le in H1, H2. unfold letter_value.
    assert (0 < 26 ^ Z.of_nat (String.length s)) by (apply Z.pow_pos_nonneg; lia).
    nia.
Qed.

Lemma column_letter_to_index_base26_witness :
  letter_string "BC" /\ 0 < column_letter_to_index "BC".
Proof.
  assert (H : letter_string "BC") by (split; [discriminate | reflexivity]).
  split; [exact H|].
  exact (proj1 (proj2 (proj2 (proj2 (proj2 (proj2 column_letter_to_index_base26))))) "BC" H).
Defined.

(** ** RGB text *)

(** The comma-separated parts [parse_rgb] looks at: quotes removed, outer
    white space stripped. *)
Definition rgb_tokens (s : string) : list string :=
  Py.split "," (Py.strip (Py.replace "'" "" s)).

(** Two upper-case hexadecimal digits of a number below 256. *)
Definition hex_char (d : Z) : ascii :=
  ascii_of_N (Z.to_N (if d <? 10 then 48 + d else 55 + d)).

Definition hex2 (n : Z) : string :=
  String (hex_char (n / 16)) (String (hex_char (n mod 16)) EmptyString).

Definition all_space (s : string) : bool :=
  forallb Py.isspace (list_ascii_of_string s).

Lemma rstrip_nonspace (c : ascii) (s : string) :
  Py.isspace c = false -> Py.rstrip (String c s) <> EmptyString.
Proof.
  intros H. simpl. rewrite H. simpl. discriminate.
Qed.

Lemma strip_empty_all_space (s : string) :
  Py.strip s = EmptyString -> all_space s = true.
Proof.
  unfold Py.strip, all_space.
  induction s as [|c s IH]; intros H; [reflexivity|].
  simpl in *. destruct (Py.isspace c) eqn:Hc.
  - simpl. now apply IH.
  - exfalso. revert H. fold (Py.rstrip (String c s)). now apply rstrip_nonspace.
Qed.

Lemma all_space_strip (s : string) :
  all_space s = true -> Py.strip s = EmptyString.
Proof.
  unfold Py.strip, all_space.
  induction s as [|c s IH]; intros H; [reflexivity|].
  simpl in *. apply andb_prop in H. destruct H as [Hc Hs].
  rewrite Hc. now apply IH.
Qed.

Lemma all_space_no_quote (s : string) :
  all_space s = true -> Py.replace "'" "" s = s.
Proof.
  unfold all_space, Py.replace.
  induction s as [|c s IH]; intros H; [reflexivity|].
  cbn [list_ascii_of_string forallb] in H. apply andb_prop in H. destruct H as [Hc Hs].
  cbn [Py.replace_from prefix]. destruct (ascii_dec "'" c) as [<-|_]; [discriminate Hc|].
  now rewrite IH.
Qed.

Lemma blank_rgb_tokens (s : string) :
  Py.strip s = EmptyString -> rgb_tokens s = [EmptyString].
Proof.
  intros H. apply strip_empty_all_space in H. unfold rgb_tokens.
  rewrite (all_space_no_quote s H), (all_space_strip s H). reflexivity.
Qed.

(** [parse_rgb] on a text, by the parts of the text. *)
Lemma parse_rgb_text (s : string) :
  parse_rgb (VStr s)
  = Ok (match rgb_tokens s with
        | [p1; p2; p3] => try_except (hex <- rgb_of_parts p1 p2 p3 ;; Ok (Some hex)) None
        | _ => None
        end).
Proof.
  unfold parse_rgb. cbn [truthy strip_method replace_method bind].
  destruct (String.eqb_spec s "") as [->|Hs]; [reflexivity|]. cbn [negb].
  destruct (String.eqb_spec (Py.strip s) "") as [Hb|Hb].
  - now rewrite (blank_rgb_tokens s Hb).
  - fold (rgb_tokens s).
    destruct (rgb_tokens s) as [|p1 [|p2 [|p3 [|p4 l]]]]; reflexivity.
Qed.

Lemma format_02X_table :
  forallb (fun k => (Py.format_02X (Z.of_nat k) =? hex2 (Z.of_nat k))%string) (seq 0 256) = true.
Proof. vm_compute. reflexivity. Qed.

Lemma format_02X_byte (n : Z) :
  0 <= n <= 255 -> Py.format_02X n = hex2 n.
Proof.
  intros H. pose proof format_02X_table as T.
  rewrite forallb_forall in T. specialize (T (Z.to_nat n)).
  rewrite Z2Nat.id in T by lia. apply String.eqb_eq, T.
  apply in_seq. lia.
Qed.

Lemma int_outcome (s : string) :
  (exists n, Py.int s = Ok n) \/ Py.int s = Raise ValueError.
Proof.
  unfold Py.int.
  match goal with |- context [match ?b with Some _ => _ | None => _ end] => destruct b end;
    eauto.
Qed.

(** What the claim says of integers outside 0..255. *)
Definition out_of_range_is_none : Prop :=
  forall s p1 p2 p3 r g b,
    rgb_tokens s = [p1; p2; p3] ->
    Py.int (Py.strip p1) = Ok r -> Py.int (Py.strip p2) = Ok g ->
    Py.int (Py.strip p3) = Ok b ->
    ~ (0 <= r <= 255 /\ 0 <= g <= 255 /\ 0 <= b <= 255) ->
    parse_rgb (VStr s) = Ok None.

(** C3 fails for integers outside 0..255: ["256,0,0"] has three integer
    parts, 256 is out of range, and [parse_rgb] returns ["1000000"]. *)
Lemma parse_rgb_out_of_range :
  rgb_tokens "256,0,0" = ["256"; "0"; "0"]
  /\ Py.int (Py.strip "256") = Ok 256
  /\ parse_rgb (VStr "256,0,0") = Ok (Some "1000000")
  /\ ~ out_of_range_is_none.
Proof.
  repeat split; try reflexivity.
  intros H.
  specialize (H "256,0,0" "256" "0" "0" 256 0 0 eq_refl eq_refl eq_refl eq_refl).
  assert (N : ~ (0 <= 256 <= 255 /\ 0 <= 0 <= 255 /\ 0 <= 0 <= 255)) by lia.
  specialize (H N). vm_compute in H. discriminate H.
Qed.

(** C3 (amended): a text of three comma-separated integers between 0 and 255
    gives the two upper-case hexadecimal digits of each, in order; a text
    with a part that is not an integer, or with other than three parts, gives
    [None]; integers outside 0..255 are not rejected, each is written by
    the same [02X] format. *)
Theorem parse_rgb_hex :
  (forall s p1 p2 p3 r g b,
      rgb_tokens s = [p1; p2; p3] ->
      Py.int (Py.strip p1) = Ok r -> Py.int (Py.strip p2) = Ok g ->
      Py.int (Py.strip p3) = Ok b ->
      parse_rgb (VStr s)
      = Ok (Some (Py.format_02X r ++ Py.format_02X g ++ Py.format_02X b))
      /\ (0 <= r <= 255 -> 0 <= g <= 255 -> 0 <= b <= 255 ->
          parse_rgb (VStr s) = Ok (Some (hex2 r ++ hex2 g ++ hex2 b))))
  /\ (forall s p1 p2 p3 e,
         rgb_tokens s = [p1; p2; p3] ->
         Py.int (Py.strip p1) = Raise e \/ Py.int (Py.strip p2) = Raise e
         \/ Py.int (Py.strip p3) = Raise e ->
         parse_rgb (VStr s) = Ok None)
  /\ (forall s, List.length (rgb_tokens s) <> 3%nat -> parse_rgb (VStr s) = Ok None)
  /\ parse_rgb (VStr "255,0,0") = Ok (Some "FF0000")
  /\ parse_rgb (VStr "0,0,0") = Ok (Some "000000").
Proof.
  split; [|split; [|split; [|split; reflexivity]]].
  - intros s p1 p2 p3 r g b Ht H1 H2 H3.
    assert (E : parse_rgb (VStr s)
                = Ok (Some (Py.format_02X r ++ Py.format_02X g ++ Py.format_02X b))).
    { rewrite parse_rgb_text, Ht. unfold rgb_of_parts. now rewrite H1, H2, H3. }
    split; [exact E|]. intros Hr Hg Hb.
    now rewrite E, !format_02X_byte.
  - intros s p1 p2 p3 e Ht H. rewrite parse_rgb_text, Ht. unfold rgb_of_parts.
    destruct H as [H|[H|H]].
    + now rewrite H.
    + rewrite H. now destruct (Py.int (Py.strip p1)).
    + rewrite H. destruct (Py.int (Py.strip p1)); [|reflexivity].
      now destruct (Py.int (Py.strip p2)).
  - intros s H. rewrite parse_rgb_text.
    destruct (rgb_tokens s) as [|p1 [|p2 [|p3 [|p4 l]]]]; try reflexivity.
    now elim H.
Qed.

Lemma parse_rgb_hex_witness :
  parse_rgb (VStr " '12', 0 ,255 ") = Ok (Some "0C00FF")
  /\ parse_rgb (VStr "1,x,3") = Ok None
  /\ parse_rgb (VStr "1,2") = Ok None.
Proof.
  destruct parse_rgb_hex as [H1 [H2 [H3 _]]].
  split; [|split].
  - apply (proj2 (H1 " '12', 0 ,255 " "12" " 0 " "255" 12 0 255
                     eq_refl eq_refl eq_refl eq_refl)); lia.
  - apply (H2 "1,x,3" "1" "x" "3" ValueError eq_refl). right. left. reflexivity.
  - apply H3. simpl. discriminate.
Defined.

(** ** Colour resolution *)

Lemma dict_get_In (d : list (string * string)) (k v : string) :
  dict_get d k = Some v -> In (k, v) d.
Proof.
  induction d as [|[k' v'] d IH]; simpl; [discriminate|].
  destruct (String.eqb_spec k' k) as [->|_].
  - intros [= ->]. now left.
  - intros H. right. now apply IH.
Qed.

(** Every palette entry has a name that passes the tests of
    [get_color_hex] and a non-empty colour. *)
Definition usable_entry (e : string * string) : bool :=
  let (k, v) := e in
  negb (k =? "")%string && negb (Py.strip k =? "")%string
  && negb (py_in (VStr k) [VStr "RGB"; VStr "NoColor"; VStr ""])
  && negb (v =? "")%string.

Lemma color_map_usable : forallb usable_entry color_map = true.
Proof. vm_compute. reflexivity. Qed.

Lemma color_by_name_text (n : string) :
  color_by_name (VStr n) = Ok (dict_get color_map n).
Proof.
  destruct (dict_get color_map n) as [h|] eqn:E.
  - pose proof (dict_get_In _ _ _ E) as Hin.
    pose proof color_map_usable as U. rewrite forallb_forall in U.
    specialize (U _ Hin). cbn [usable_entry] in U.
    apply andb_prop in U. destruct U as [U Hh].
    apply andb_prop in U. destruct U as [U Hs].
    apply andb_prop in U. destruct U as [Hn Hb].
    unfold color_by_name. cbn [truthy strip_method bind color_name_to_hex].
    rewrite Hn, Hb, Hs, E. cbn [andb bind some_nonempty]. now rewrite Hh.
  - unfold color_by_name. cbn [truthy strip_method bind color_name_to_hex].
    rewrite E.
    destruct (negb (n =? "")%string); cbn [bind]; [|reflexivity].
    now destruct (negb (Py.strip n =? "")%string && _).
Qed.

(** What the claim says of a malformed RGB text next to a colour name. *)
Definition malformed_rgb_is_none : Prop :=
  forall n s,
    Py.strip s <> EmptyString -> parse_rgb (VStr s) = Ok None ->
    get_color_hex (VStr n) (VStr s) = Ok None.

(** C2 fails: with the RGB text ["abc"], which is not empty and does not
    parse, and the name ["Red"], [get_color_hex] looks the name up and
    returns ["FF0000"]. *)
Lemma get_color_hex_malformed_rgb_named :
  Py.strip "abc" <> EmptyString
  /\ parse_rgb (VStr "abc") = Ok None
  /\ get_color_hex (VStr "Red") (VStr "abc") = Ok (Some "FF0000")
  /\ ~ malformed_rgb_is_none.
Proof.
  assert (Hs : Py.strip "abc" <> EmptyString) by (vm_compute; discriminate).
  repeat split; try reflexivity; try exact Hs.
  intros H. specialize (H "Red" "abc" Hs eq_refl). vm_compute in H. discriminate H.
Qed.

(** C2 (amended): when the RGB text does not parse, be it empty or not,
    [get_color_hex] goes on to the name: it returns the palette colour of a
    name of the table and [None] for any other text, such as the markers
    ["RGB"] and ["NoColor"]; with no name at all it returns [None]. *)
Theorem get_color_hex_falls_through :
  (forall n s,
      parse_rgb (VStr s) = Ok None ->
      get_color_hex (VStr n) (VStr s) = Ok (dict_get color_map n))
  /\ (forall s, parse_rgb (VStr s) = Ok None -> get_color_hex VNone (VStr s) = Ok None)
  /\ dict_get color_map "RGB" = None
  /\ dict_get color_map "NoColor" = None
  /\ dict_get color_map "Red" = Some "FF0000".
Proof.
  assert (F : forall name s, parse_rgb (VStr s) = Ok None ->
                             get_color_hex name (VStr s) = color_by_name name).
  { intros name s H. unfold get_color_hex. cbn [truthy strip_method bind].
    destruct (negb (s =? "")%string); cbn [bind]; [|reflexivity].
    destruct (negb (Py.strip s =? "")%string); [|reflexivity].
    rewrite H. reflexivity. }
  repeat split; try reflexivity.
  - intros n s H. now rewrite (F _ _ H), color_by_name_text.
  - intros s H. now rewrite (F _ _ H).
Qed.

Lemma get_color_hex_falls_through_witness :
  parse_rgb (VStr "1,2") = Ok None
  /\ get_color_hex (VStr "Gold") (VStr "1,2") = Ok (Some "FFC000")
  /\ get_color_hex VNone (VStr "1,2") = Ok None.
Proof.
  split; [reflexivity|]. split.
  - exact (proj1 get_color_hex_falls_through "Gold" "1,2" eq_refl).
  - exact (proj1 (proj2 get_color_hex_falls_through) "1,2" eq_refl).
Defined.

(** ** Reading the rule table *)

(** [if row[0]:] *)
Definition has_start_column (row : list value) : bool :=
  match row with
  | v :: _ => truthy v
  | [] => false
  end.

(** The field [i] of a row, or [d] when the row is too short. *)
Definition field (row : list value) (i : nat) (d : value) : value :=
  if (i <? List.length row)%nat then nth i row VNone else d.

Lemma item_nth (row : list value) (i : nat) :
  (i < List.length row)%nat -> item row i = Ok (nth i row VNone).
Proof.
  intros H. unfold item. now rewrite (nth_error_nth' row VNone H).
Qed.

Lemma item_short (row : list value) (i : nat) :
  (List.length row <= i)%nat -> item row i = Raise IndexError.
Proof.
  intros H. unfold item. apply nth_error_None in H. now rewrite H.
Qed.

Lemma item_or_field (row : list value) (i : nat) (d : value) :
  item_or row i d = Ok (field row i d).
Proof.
  unfold item_or, field. destruct (Nat.ltb_spec i (List.length row)) as [H|H].
  - now apply item_nth.
  - reflexivity.
Qed.

(** The record of a row of four fields or more. *)
Definition record_of (row : list value) : rule :=
  {| start_col := nth 0 row VNone;
     end_col := nth 1 row VNone;
     formula := if truthy (nth 2 row VNone) then nth 2 row VNone else VStr "";
     stop_if_true :=
       if truthy (nth 3 row VNone) then py_eq (nth 3 row VNone) (VStr "Y") else false;
     bg_color := field row 4 (VStr "");
     bg_rgb := field row 5 (VStr "");
     font_color := field row 6 (VStr "");
     font_rgb := field row 7 (VStr "");
     number_format := field row 8 (VStr "");
     worksheet := field row 9 (VStr "Sheet1") |}.

Lemma rule_of_row_wide (row : list value) :
  (4 <= List.length row)%nat -> rule_of_row row = Ok (record_of row).
Proof.
  intros H. unfold rule_of_row, record_of.
  rewrite !item_or_field, !item_nth by lia. cbn [bind].
  destruct (truthy (nth 2 row VNone)); cbn [bind];
    destruct (truthy (nth 3 row VNone)); reflexivity.
Qed.

Lemma rule_of_row_narrow (row : list value) :
  (List.length row < 4)%nat -> exists e, rule_of_row row = Raise e.
Proof.
  intros H. unfold rule_of_row.
  destruct row as [|c0 [|c1 [|c2 [|c3 rest]]]]; simpl in H; try lia.
  - cbn. eauto.
  - cbn. eauto.
  - cbn. eauto.
  - cbn [item nth_error bind]. destruct (truthy c2); cbn [bind]; eauto.
Qed.

Lemma rule_of_row_inv (row : list value) (r : rule) :
  rule_of_row row = Ok r -> (4 <= List.length row)%nat /\ r = record_of row.
Proof.
  intros H. destruct (Nat.le_gt_cases 4 (List.length row)) as [L|L].
  - split; [exact L|]. rewrite (rule_of_row_wide row L) in H. congruence.
  - destruct (rule_of_row_narrow row L) as [e E]. congruence.
Qed.

Lemma read_row_keep (rules : list rule) (row : list value) (r : rule) :
  has_start_column row = true -> rule_of_row row = Ok r ->
  read_row rules row = Ok (rules ++ [r])%list.
Proof.
  intros H E. destruct row as [|v rest]; [discriminate|]. simpl in H.
  unfold read_row. cbn [item nth_error bind]. now rewrite H, E.
Qed.

Lemma read_row_drop (rules : list rule) (v : value) (rest : list value) :
  truthy v = false -> read_row rules (v :: rest) = Ok rules.
Proof.
  intros H. unfold read_row. cbn [item nth_error bind]. now rewrite H.
Qed.

Lemma read_row_inv (acc rules : list rule) (row : list value) :
  read_row acc row = Ok rules ->
  (has_start_column row = false /\ rules = acc)
  \/ (has_start_column row = true
      /\ exists r, rule_of_row row = Ok r /\ rules = (acc ++ [r])%list).
Proof.
  destruct row as [|v rest]; [discriminate|].
  unfold read_row. cbn [item nth_error bind has_start_column].
  destruct (truthy v).
  - destruct (rule_of_row (v :: rest)) as [r|e] eqn:E; cbn [bind]; [|discriminate].
    intros [= <-]. right. eauto.
  - intros [= <-]. now left.
Qed.

(** The records read are those of the rows that have a start column, in
    the order of the rows. *)
Lemma read_rows_filter (rows : list (list value)) (acc rules : list rule) :
  read_rows acc rows = Ok rules ->
  exists new,
    rules = (acc ++ new)%list
    /\ Forall2 (fun row r => rule_of_row row = Ok r) (filter has_start_column rows) new.
Proof.
  revert acc. induction rows as [|row rows IH]; intros acc H.
  - injection H as <-. exists []. split; [now rewrite app_nil_r | constructor].
  - cbn [read_rows] in H.
    destruct (read_row acc row) as [acc'|e] eqn:E; cbn [bind] in H; [|discriminate].
    destruct (IH _ H) as [new [-> F]].
    destruct (read_row_inv _ _ _ E) as [[Hd ->]|[Hk [r [Er ->]]]].
    + exists new. cbn [filter]. now rewrite Hd.
    + exists (r :: new). cbn [filter]. rewrite Hk, <- app_assoc. split; [reflexivity|].
      now constructor.
Qed.

(** A row read without an exception: it is not the empty tuple, and it has
    four fields at least when it has a start column. *)
Definition readable (row : list value) : Prop :=
  row <> [] /\ (has_start_column row = true -> (4 <= List.length row)%nat).

Lemma read_rows_total (rows : list (list value)) (acc : list rule) :
  Forall readable rows -> exists rules, read_rows acc rows = Ok rules.
Proof.
  intros F. revert acc. induction F as [|row rows [Hne Hw] F IH]; intros acc.
  - now exists acc.
  - cbn [read_rows]. destruct row as [|v rest]; [congruence|].
    destruct (truthy v) eqn:T.
    + rewrite (read_row_keep acc (v :: rest) _ T (rule_of_row_wide _ (Hw T))).
      cbn [bind]. apply IH.
    + rewrite (read_row_drop acc _ _ T). cbn [bind]. apply IH.
Qed.

Lemma read_rows_empty (rows : list (list value)) (acc : list rule) :
  Forall (fun row => exists v rest, row = v :: rest /\ truthy v = false) rows ->
  read_rows acc rows = Ok acc.
Proof.
  intros F. induction F as [|row rows [v [rest [-> T]]] F IH]; [reflexivity|].
  cbn [read_rows]. rewrite (read_row_drop acc _ _ T). exact IH.
Qed.

Lemma stop_flag_Y (x : value) :
  (if truthy x then py_eq x (VStr "Y") else false) = true <-> x = VStr "Y".
Proof.
  destruct x as [|s|n|b]; cbn [truthy py_eq].
  - split; discriminate.
  - destruct (String.eqb_spec s "Y") as [->|N].
    + split; reflexivity.
    + destruct (negb (s =? "")%string); split; try discriminate; intros [= E]; contradiction.
  - destruct (negb (n =? 0)); split; discriminate.
  - destruct b; split; discriminate.
Qed.

Lemma rule_of_row_stop (row : list value) (r : rule) :
  rule_of_row row = Ok r ->
  (stop_if_true r = true <-> nth_error row 3 = Some (VStr "Y")).
Proof.
  intros H. destruct (rule_of_row_inv _ _ H) as [L ->].
  cbn [record_of stop_if_true]. rewrite stop_flag_Y.
  rewrite (nth_error_nth' row VNone (n := 3)) by lia.
  split; [now intros -> | now intros [= ->]].
Qed.

(** C10: the stop flag of a record is true exactly when the fourth field of
    its row is the text ["Y"]; any other content of that field, such as
    ["y"], the empty text or an empty cell, gives false. *)
Theorem stop_if_true_iff_Y :
  (forall row r,
      rule_of_row row = Ok r ->
      (stop_if_true r = true <-> nth_error row 3 = Some (VStr "Y")))
  /\ (forall rows rules,
         read_rows [] rows = Ok rules ->
         Forall2 (fun row r => stop_if_true r = true <-> nth_error row 3 = Some (VStr "Y"))
                 (filter has_start_column rows) rules)
  /\ (forall row r v,
         rule_of_row row = Ok r -> nth_error row 3 = Some v -> v <> VStr "Y" ->
         stop_if_true r = false).
Proof.
  split; [exact rule_of_row_stop|]. split.
  - intros rows rules H. destruct (read_rows_filter _ _ _ H) as [new [-> F]].
    cbn [app]. revert F. apply Forall2_impl. exact rule_of_row_stop.
  - intros row r v H Hv N. pose proof (rule_of_row_stop _ _ H) as [I _].
    destruct (stop_if_true r); [|reflexivity].
    specialize (I eq_refl). rewrite Hv in I. now injection I.
Qed.

Lemma stop_if_true_iff_Y_witness :
  (stop_if_true (record_of [VStr "A"; VStr "B"; VStr "=1"; VStr "Y"]) = true
   <-> nth_error [VStr "A"; VStr "B"; VStr "=1"; VStr "Y"] 3 = Some (VStr "Y"))
  /\ stop_if_true (record_of [VStr "A"; VStr "B"; VStr "=1"; VStr "y"]) = false.
Proof.
  split.
  - exact (proj1 stop_if_true_iff_Y [VStr "A"; VStr "B"; VStr "=1"; VStr "Y"] _ eq_refl).
  - apply (proj2 (proj2 stop_if_true_iff_Y)
             [VStr "A"; VStr "B"; VStr "=1"; VStr "y"] _ (VStr "y") eq_refl eq_refl).
    discriminate.
Defined.

(** What the claim says of a row of fewer than ten fields. *)
Definition narrow_row_parses : Prop :=
  forall row,
    has_start_column row = true -> (List.length row < 10)%nat ->
    exists r, rule_of_row row = Ok r.

(** C4 fails for rows of fewer than four fields: the one-field row [("A",)]
    has a start column, and reading it raises [IndexError] at [row[1]]. *)
Lemma narrow_row_raises :
  has_start_column [VStr "A"] = true
  /\ rule_of_row [VStr "A"] = Raise IndexError
  /\ read_rows [] [[VStr "A"]] = Raise IndexError
  /\ ~ narrow_row_parses.
Proof.
  repeat split; try reflexivity.
  intros H. destruct (H [VStr "A"] eq_refl) as [r E].
  - simpl. lia.
  - discriminate E.
Qed.

(** C4 (amended): a row of four fields or more with a start column is read
    without an exception, and each of the fields five to ten that the row
    lacks takes its default: the empty text for the colours and the number
    format, ["Sheet1"] for the worksheet; the stop flag is false when the
    fourth field is empty. *)
Theorem rule_of_row_defaults (row : list value) :
  has_start_column row = true -> (4 <= List.length row)%nat ->
  exists r,
    rule_of_row row = Ok r
    /\ (forall rules, read_row rules row = Ok (rules ++ [r])%list)
    /\ (truthy (nth 3 row VNone) = false -> stop_if_true r = false)
    /\ ((List.length row <= 4)%nat -> bg_color r = VStr "")
    /\ ((List.length row <= 5)%nat -> bg_rgb r = VStr "")
    /\ ((List.length row <= 6)%nat -> font_color r = VStr "")
    /\ ((List.length row <= 7)%nat -> font_rgb r = VStr "")
    /\ ((List.length row <= 8)%nat -> number_format r = VStr "")
    /\ ((List.length row <= 9)%nat -> worksheet r = VStr "Sheet1").
Proof.
  intros Hs L. exists (record_of row).
  pose proof (rule_of_row_wide row L) as E.
  assert (D : forall i d, (List.length row <= i)%nat -> field row i d = d).
  { intros i d Hi. unfold field. destruct (Nat.ltb_spec i (List.length row)); [lia|reflexivity]. }
  split; [exact E|]. split; [intros rules; now apply read_row_keep|].
  cbn [record_of stop_if_true bg_color bg_rgb font_color font_rgb number_format worksheet].
  split; [now intros ->|]. repeat split; apply D.
Qed.

Lemma rule_of_row_defaults_witness :
  exists r,
    rule_of_row [VStr "A"; VStr "C"; VStr "=A1>0"; VNone; VStr "Red"] = Ok r
    /\ stop_if_true r = false /\ bg_color r = VStr "Red" /\ bg_rgb r = VStr ""
    /\ worksheet r = VStr "Sheet1".
Proof.
  destruct (rule_of_row_defaults [VStr "A"; VStr "C"; VStr "=A1>0"; VNone; VStr "Red"])
    as [r [E [_ [S [_ [B [_ [_ [_ W]]]]]]]]].
  - reflexivity.
  - simpl. lia.
  - exists r. split; [exact E|]. split; [now apply S|].
    split; [injection E as <-; reflexivity|].
    split; [apply B; simpl; lia | apply W; simpl; lia].
Defined.

(** A cell that is neither null nor the empty text. *)
Definition non_empty (v : value) : bool :=
  match v with
  | VNone => false
  | VStr s => negb (s =? "")%string
  | VInt _ | VBool _ => true
  end.

Definition starts_non_empty (row : list value) : bool :=
  match row with
  | v :: _ => non_empty v
  | [] => false
  end.

(** What the claim says of every rule table: it is read, and the records
    are those of the rows whose first field is not empty. *)
Definition every_table_reads : Prop :=
  forall rows,
    exists rules,
      read_rows [] rows = Ok rules
      /\ Forall2 (fun row r => rule_of_row row = Ok r) (filter starts_non_empty rows) rules.

(** C7 fails on two counts: the one-field row [("A",)] has a first field
    that is not empty and is not included, reading it raises [IndexError];
    and the row [(0, "C", "=1", None)] has a first field that is neither
    null nor empty and is dropped, [0] being false in [if row[0]]. *)
Lemma start_column_not_decisive :
  starts_non_empty [VStr "A"] = true
  /\ read_rows [] [[VStr "A"]] = Raise IndexError
  /\ starts_non_empty [VInt 0; VStr "C"; VStr "=1"; VNone] = true
  /\ read_rows [] [[VInt 0; VStr "C"; VStr "=1"; VNone]] = Ok []
  /\ ~ every_table_reads.
Proof.
  repeat split; try reflexivity.
  intros H. destruct (H [[VStr "A"]]) as [rules [E _]]. discriminate E.
Qed.

(** C7 (amended): a rule table in which every row with a start column has
    four fields or more is read without an exception, and the records are
    those of the rows whose first field is true in a condition, in order:
    a row is dropped exactly when its first field is null, the empty text,
    the number 0 or FALSE; dropping a row raises nothing; a table whose data
    rows all have an empty start column ends the run with
    [EmptyRuleSetError]. *)
Theorem read_rows_start_column :
  (forall rows,
      Forall readable rows ->
      exists rules,
        read_rows [] rows = Ok rules
        /\ Forall2 (fun row r => rule_of_row row = Ok r /\ start_col r = nth 0 row VNone)
                   (filter has_start_column rows) rules)
  /\ (forall rules v rest, truthy v = false -> read_row rules (v :: rest) = Ok rules)
  /\ (forall (lib : Openpyxl) rules_file header rows target_file row_number_input
             first_row last_row mode row_number,
         row_number_of row_number_input first_row = Some row_number ->
         get_sheet "CF Rules" rules_file = Some (header :: rows) ->
         Forall (fun row => exists v rest, row = v :: rest /\ truthy v = false) rows ->
         apply_cf_rules rules_file target_file row_number_input first_row last_row mode
         = Reported EmptyRuleSetError)
  /\ (forall v,
         truthy v = false
         <-> v = VNone \/ v = VStr "" \/ v = VInt 0 \/ v = VBool false).
Proof.
  split; [|split; [|split]].
  - intros rows F. destruct (read_rows_total rows [] F) as [rules H].
    exists rules. split; [exact H|].
    destruct (read_rows_filter _ _ _ H) as [new [-> G]].
    cbn [app]. revert G. apply Forall2_impl. intros row r E.
    split; [exact E|]. destruct (rule_of_row_inv _ _ E) as [_ ->]. reflexivity.
  - intros rules v rest T. now apply read_row_drop.
  - intros lib rules_file header rows target_file rni first_row last_row mode rn Hrn Hs F.
    unfold apply_cf_rules. rewrite Hrn. unfold run_rules. rewrite Hs.
    cbn [tl]. now rewrite (read_rows_empty rows [] F).
  - intros v. destruct v as [|s|n|b]; cbn [truthy].
    + split; [now left|reflexivity].
    + destruct (String.eqb_spec s "") as [->|N]; cbn [negb].
      * split; [intros _; right; now left|reflexivity].
      * split; [discriminate|].
        intros [H|[H|[H|H]]]; try discriminate H. injection H as ->. now elim N.
    + destruct (Z.eqb_spec n 0) as [->|N]; cbn [negb].
      * split; [intros _; right; right; now left|reflexivity].
      * split; [discriminate|].
        intros [H|[H|[H|H]]]; try discriminate H. injection H as ->. now elim N.
    + destruct b.
      * split; [discriminate|]. intros [H|[H|[H|H]]]; discriminate H.
      * split; [intros _; right; right; now right|reflexivity].
Qed.

(** ** The application loop *)

(** [s] with the rules [ds] added after its own. *)
Definition extend_sheet (ds : list (string * cf_rule)) (s : sheet) : sheet :=
  {| title := title s;
     conditional_formatting := (conditional_formatting s ++ ds)%list |}.

Lemma extend_sheet_nil (s : sheet) : extend_sheet [] s = s.
Proof.
  destruct s as [t cf]. unfold extend_sheet. cbn. now rewrite app_nil_r.
Qed.

Lemma extend_sheet_app (a b : list (string * cf_rule)) (s : sheet) :
  extend_sheet b (extend_sheet a s) = extend_sheet (a ++ b) s.
Proof.
  unfold extend_sheet. cbn. now rewrite app_assoc.
Qed.

Lemma alter_sheet_ext (f g : sheet -> sheet) (i : nat) (wb : workbook) :
  (forall s, f s = g s) -> alter_sheet f i wb = alter_sheet g i wb.
Proof.
  intros E. revert i. induction wb as [|s wb IH]; intros [|i]; cbn; try reflexivity.
  - now rewrite E.
  - now rewrite IH.
Qed.

Lemma alter_sheet_id (i : nat) (wb : workbook) : alter_sheet (extend_sheet []) i wb = wb.
Proof.
  revert i. induction wb as [|s wb IH]; intros [|i]; cbn; try reflexivity.
  - now rewrite extend_sheet_nil.
  - now rewrite IH.
Qed.

Lemma alter_sheet_twice (f g : sheet -> sheet) (i : nat) (wb : workbook) :
  alter_sheet g i (alter_sheet f i wb) = alter_sheet (fun s => g (f s)) i wb.
Proof.
  revert i. induction wb as [|s wb IH]; intros [|i]; cbn; try reflexivity.
  now rewrite IH.
Qed.

Lemma alter_sheet_length (f : sheet -> sheet) (i : nat) (wb : workbook) :
  List.length (alter_sheet f i wb) = List.length wb.
Proof.
  revert i. induction wb as [|s wb IH]; intros [|i]; cbn; try reflexivity.
  now rewrite IH.
Qed.

Lemma alter_sheet_same (f : sheet -> sheet) (i : nat) (wb : workbook) :
  nth_error (alter_sheet f i wb) i = option_map f (nth_error wb i).
Proof.
  revert i. induction wb as [|s wb IH]; intros [|i]; cbn; try reflexivity.
  apply IH.
Qed.

Lemma alter_sheet_other (f : sheet -> sheet) (i j : nat) (wb : workbook) :
  i <> j -> nth_error (alter_sheet f i wb) j = nth_error wb j.
Proof.
  revert i j. induction wb as [|s wb IH]; intros [|i] [|j] N; cbn; try reflexivity.
  - congruence.
  - apply IH. congruence.
Qed.

Lemma alter_sheet_names (f : sheet -> sheet) (i : nat) (wb : workbook) :
  (forall s, title (f s) = title s) ->
  sheetnames (alter_sheet f i wb) = sheetnames wb.
Proof.
  intros T. revert i. induction wb as [|s wb IH]; intros [|i]; cbn; try reflexivity.
  - now rewrite T.
  - unfold sheetnames in IH. now rewrite IH.
Qed.

Section Loop.

Context {lib : Openpyxl}.
Variable row_number : string.
Variables start_row end_row : Z.

(** Steps a to d of the engine for one record: the range and the rule to
    attach, [None] for a record to pass over, or the exception of a
    failed step. *)
Definition directive (r : rule) : res (option (string * cf_rule)) :=
  formula_text <-
    (if truthy (formula r) then replace_method (formula r) "@ROW@" row_number
     else Ok "") ;;
  if (formula_text =? "")%string then Ok None
  else
    bg_hex <- get_color_hex (bg_color r) (bg_rgb r) ;;
    font_hex <- get_color_hex (font_color r) (font_rgb r) ;;
    if negb (some_nonempty bg_hex) && negb (some_nonempty font_hex) then Ok None
    else
      fill <- style_color bg_hex ;;
      font <- style_color font_hex ;;
      let range_string :=
        Py.str (start_col r) ++ Py.str_of_int start_row ++ ":"
        ++ Py.str (end_col r) ++ Py.str_of_int end_row in
      if range_ok range_string
      then Ok (Some (range_string,
                     {| cf_formula := formula_text;
                        cf_stopIfTrue := stop_if_true r;
                        cf_fill := fill;
                        cf_font := font |}))
      else Raise ValueError.

(** The directive a record ends up with: none when a step failed. *)
Definition emitted (r : rule) : option (string * cf_rule) :=
  try_except (directive r) None.

Definition directives (rules : list rule) : list (string * cf_rule) :=
  flat_map (fun r => match emitted r with Some d => [d] | None => [] end) rules.

Definition applied (ws : nat) (d : string * cf_rule) (st : loop_state) : loop_state :=
  {| wb_new := alter_sheet (append_rule (fst d) (snd d)) ws (wb_new st);
     rules_applied := S (rules_applied st);
     rules_skipped := rules_skipped st |}.

Lemma try_rule_directive (ws : nat) (r : rule) (st : loop_state) :
  try_rule row_number start_row end_row ws r st
  = (d <- directive r ;;
     match d with
     | Some d => Ok (applied ws d st)
     | None => Ok (skip st)
     end).
Proof.
  unfold try_rule, directive.
  destruct (if truthy (formula r) then _ else _) as [ft|e]; cbn [bind]; [|reflexivity].
  destruct (ft =? "")%string; [reflexivity|].
  destruct (get_color_hex (bg_color r) (bg_rgb r)) as [bg|e]; cbn [bind]; [|reflexivity].
  destruct (get_color_hex (font_color r) (font_rgb r)) as [fg|e]; cbn [bind]; [|reflexivity].
  destruct (negb (some_nonempty bg) && negb (some_nonempty fg)); [reflexivity|].
  destruct (style_color bg) as [fill|e]; cbn [bind]; [|reflexivity].
  destruct (style_color fg) as [font|e]; cbn [bind]; [|reflexivity].
  unfold add. destruct (range_ok _); reflexivity.
Qed.

Lemma apply_rule_emitted (ws : nat) (st : loop_state) (r : rule) :
  apply_rule row_number start_row end_row ws st r
  = match emitted r with
    | Some d => applied ws d st
    | None => skip st
    end.
Proof.
  unfold apply_rule, emitted. rewrite try_rule_directive.
  destruct (directive r) as [[d|]|e]; reflexivity.
Qed.

(** The inner loop adds the directives of the rules to the sheet [ws], in
    order, and counts every rule once. *)
Lemma apply_rules_fold (ws : nat) (rules : list rule) (st : loop_state) :
  fold_left (apply_rule row_number start_row end_row ws) rules st
  = {| wb_new := alter_sheet (extend_sheet (directives rules)) ws (wb_new st);
       rules_applied := rules_applied st + List.length (directives rules);
       rules_skipped :=
         rules_skipped st + (List.length rules - List.length (directives rules)) |}.
Proof.
  revert st. induction rules as [|r rules IH]; intros st.
  - cbn. rewrite alter_sheet_id, !Nat.add_0_r. now destruct st.
  - cbn [fold_left]. rewrite IH, apply_rule_emitted. unfold directives at 1 2 4 5 6.
    cbn [flat_map]. fold (directives rules).
    assert (L : (List.length (directives rules) <= List.length rules)%nat).
    { clear. induction rules as [|r rules IH]; [constructor|].
      unfold directives in *. cbn [flat_map]. rewrite length_app. cbn [List.length].
      destruct (emitted r); cbn [List.length]; lia. }
    destruct (emitted r) as [[rg cf]|]; cbn [applied skip wb_new rules_applied
      rules_skipped fst snd app List.length].
    + rewrite alter_sheet_twice. f_equal; try lia.
      apply alter_sheet_ext. intros s. unfold append_rule, extend_sheet. cbn.
      now rewrite <- app_assoc.
    + f_equal; lia.
Qed.

End Loop.

Section Counting.

Context {lib : Openpyxl}.
Variable row_number : string.
Variables start_row end_row : Z.

Lemma directives_length (rules : list rule) :
  (List.length (directives row_number start_row end_row rules) <= List.length rules)%nat.
Proof.
  induction rules as [|r rules IH]; [constructor|].
  unfold directives in *. cbn [flat_map]. rewrite length_app. cbn [List.length].
  destruct (emitted row_number start_row end_row r); cbn [List.length]; lia.
Qed.

(** The number of rules a group list holds. *)
Definition group_total (groups : list (value * list rule)) : nat :=
  list_sum (map (fun g => List.length (snd g)) groups).

Lemma group_total_cons (name : value) (rules : list rule)
      (groups : list (value * list rule)) :
  group_total ((name, rules) :: groups) = (List.length rules + group_total groups)%nat.
Proof. reflexivity. Qed.

Lemma apply_sheet_inv (st st' : loop_state) (name : value) (rules : list rule) :
  apply_sheet row_number start_row end_row st (name, rules) = Ok st' ->
  exists ws wb,
    get_or_create name (wb_new st) = Ok (ws, wb)
    /\ st' = {| wb_new := alter_sheet (extend_sheet (directives row_number start_row
                                                       end_row rules)) ws wb;
                rules_applied :=
                  rules_applied st
                  + List.length (directives row_number start_row end_row rules);
                rules_skipped :=
                  rules_skipped st
                  + (List.length rules
                     - List.length (directives row_number start_row end_row rules)) |}.
Proof.
  unfold apply_sheet.
  destruct (get_or_create name (wb_new st)) as [[ws wb]|e]; cbn [bind]; [|discriminate].
  intros [= <-]. exists ws, wb. split; [reflexivity|]. now rewrite apply_rules_fold.
Qed.

Lemma apply_sheets_counts (groups : list (value * list rule)) (st st' : loop_state) :
  apply_sheets row_number start_row end_row st groups = Ok st' ->
  (rules_applied st' + rules_skipped st'
   = rules_applied st + rules_skipped st + group_total groups)%nat.
Proof.
  revert st. induction groups as [|[name rules] groups IH]; intros st H.
  - injection H as <-. unfold group_total. cbn. lia.
  - cbn [apply_sheets] in H.
    destruct (apply_sheet row_number start_row end_row st (name, rules)) as [st1|e] eqn:E;
      cbn [bind] in H; [|discriminate].
    rewrite (IH _ H). destruct (apply_sheet_inv _ _ _ _ E) as [ws [wb [_ ->]]].
    pose proof (directives_length rules). rewrite group_total_cons.
    cbn [rules_applied rules_skipped]. lia.
Qed.

End Counting.

Lemma group_add_total (name : value) (r : rule) (groups : list (value * list rule)) :
  group_total (group_add name r groups) = S (group_total groups).
Proof.
  induction groups as [|[k rs] groups IH]; [reflexivity|].
  cbn [group_add]. destruct (py_eq k name); rewrite !group_total_cons.
  - rewrite length_app. cbn [List.length]. lia.
  - rewrite IH. lia.
Qed.

Lemma group_rules_total (rules : list rule) :
  group_total (group_rules rules) = List.length rules.
Proof.
  unfold group_rules.
  assert (G : forall groups,
             group_total (fold_left (fun groups r => group_add (sheet_name_of r) r groups)
                                    rules groups)
             = (group_total groups + List.length rules)%nat).
  { induction rules as [|r rules IH]; intros groups; cbn [fold_left List.length]; [lia|].
    rewrite IH, group_add_total. lia. }
  now rewrite G.
Qed.

(** What [run_rules] returns comes from the loop over the groups of the
    records read. *)
Lemma run_rules_inv {lib : Openpyxl} (row_number : string) (rules_file : rules_workbook)
      (target_file : option workbook) (first_row last_row : option Z) (mode : string)
      (out : result) :
  run_rules row_number rules_file target_file first_row last_row mode = Returned out ->
  exists rules_sheet rules wb0 st,
    get_sheet "CF Rules" rules_file = Some rules_sheet
    /\ read_rows [] (tl rules_sheet) = Ok rules
    /\ (if (mode =? "Update Existing File")%string then target_file else Some [])
       = Some wb0
    /\ apply_sheets row_number (fst (row_range first_row last_row))
         (snd (row_range first_row last_row))
         {| wb_new := wb0; rules_applied := 0; rules_skipped := 0 |}
         (group_rules rules) = Ok st
    /\ out = {| output := wb_new st;
                res_rules_by_sheet := group_rules rules;
                res_rules := rules;
                res_rules_applied := rules_applied st;
                res_rules_skipped := rules_skipped st;
                res_row_number := row_number;
                res_start_row := fst (row_range first_row last_row);
                res_end_row := snd (row_range first_row last_row) |}.
Proof.
  unfold run_rules.
  destruct (get_sheet "CF Rules" rules_file) as [rules_sheet|] eqn:S; [|discriminate].
  destruct (read_rows [] (tl rules_sheet)) as [rules|e] eqn:R; [|discriminate].
  destruct rules as [|r0 rules]; [discriminate|].
  destruct (if (mode =? "Update Existing File")%string then target_file else Some [])
    as [wb0|] eqn:T; [|discriminate].
  destruct (row_range first_row last_row) as [sr er]. cbn [fst snd].
  destruct (apply_sheets row_number sr er _ _) as [st|e] eqn:E; [|discriminate].
  intros [= <-]. exists rules_sheet, (r0 :: rules), wb0, st.
  split; [reflexivity|]. split; [exact R|]. split; [reflexivity|].
  split; [exact E|reflexivity].
Qed.

Lemma apply_cf_rules_inv {lib : Openpyxl} (rules_file : rules_workbook)
      (target_file : option workbook) (row_number_input : option string)
      (first_row last_row : option Z) (mode : string) (out : result) :
  apply_cf_rules rules_file target_file row_number_input first_row last_row mode
  = Returned out ->
  exists row_number,
    row_number_of row_number_input first_row = Some row_number
    /\ run_rules row_number rules_file target_file first_row last_row mode = Returned out.
Proof.
  unfold apply_cf_rules.
  destruct (row_number_of row_number_input first_row) as [rn|]; [|discriminate].
  intros H. now exists rn.
Qed.

(** The number of rules the sheet at position [ws] carries. *)
Definition rule_count (ws : nat) (wb : workbook) : nat :=
  match nth_error wb ws with
  | Some s => List.length (conditional_formatting s)
  | None => O
  end.

(** C8: every record read is counted once, as applied or as skipped; a
    directive is added to the sheet for a record exactly when the record is
    counted as applied; a record with an empty formula, or with neither
    colour resolved, is counted as skipped and adds nothing. *)
Theorem every_rule_counted_once :
  (forall (lib : Openpyxl) rules_file target_file row_number_input first_row last_row
          mode out,
      apply_cf_rules rules_file target_file row_number_input first_row last_row mode
      = Returned out ->
      (res_rules_applied out + res_rules_skipped out = List.length (res_rules out))%nat)
  /\ (forall (lib : Openpyxl) row_number start_row end_row ws st r,
         let st' := apply_rule row_number start_row end_row ws st r in
         (st' = skip st
          \/ exists range_string cf,
               st' = {| wb_new := alter_sheet (append_rule range_string cf) ws (wb_new st);
                        rules_applied := S (rules_applied st);
                        rules_skipped := rules_skipped st |})
         /\ (rules_applied st' + rules_skipped st'
             = S (rules_applied st + rules_skipped st))%nat
         /\ ((ws < List.length (wb_new st))%nat ->
             (rule_count ws (wb_new st') + rules_applied st
              = rule_count ws (wb_new st) + rules_applied st')%nat))
  /\ (forall (lib : Openpyxl) row_number start_row end_row ws st r,
         truthy (formula r) = false
         \/ (exists s, formula r = VStr s /\ Py.replace "@ROW@" row_number s = EmptyString) ->
         apply_rule row_number start_row end_row ws st r = skip st)
  /\ (forall (lib : Openpyxl) row_number start_row end_row ws st r,
         get_color_hex (bg_color r) (bg_rgb r) = Ok None ->
         get_color_hex (font_color r) (font_rgb r) = Ok None ->
         apply_rule row_number start_row end_row ws st r = skip st).
Proof.
  split; [|split; [|split]].
  - intros lib rules_file target_file rni first_row last_row mode out H.
    destruct (apply_cf_rules_inv _ _ _ _ _ _ _ H) as [rn [_ R]].
    destruct (run_rules_inv _ _ _ _ _ _ _ R) as [sh [rules [wb0 [st [_ [_ [_ [A ->]]]]]]]].
    cbn [res_rules_applied res_rules_skipped res_rules].
    rewrite (apply_sheets_counts _ _ _ _ _ _ A), group_rules_total. cbn. lia.
  - intros lib rn sr er ws st r st'. subst st'. rewrite apply_rule_emitted.
    destruct (emitted rn sr er r) as [[rg cf]|].
    + split; [right; exists rg, cf; reflexivity|].
      cbn [applied wb_new rules_applied rules_skipped fst snd]. split; [lia|].
      intros L. unfold rule_count. rewrite alter_sheet_same.
      destruct (nth_error (wb_new st) ws) as [s|] eqn:E.
      * cbn [option_map append_rule conditional_formatting]. rewrite length_app.
        cbn [List.length]. lia.
      * apply nth_error_None in E. lia.
    + split; [now left|]. cbn [skip wb_new rules_applied rules_skipped].
      split; lia.
  - intros lib rn sr er ws st r H. rewrite apply_rule_emitted.
    unfold emitted, directive.
    destruct H as [H|[s [Hf He]]].
    + now rewrite H.
    + rewrite Hf. cbn [replace_method]. rewrite He.
      now destruct (truthy (VStr s)).
  - intros lib rn sr er ws st r Hb Hf. rewrite apply_rule_emitted.
    unfold emitted, directive. rewrite Hb, Hf.
    destruct (if truthy (formula r) then _ else _) as [ft|e]; cbn [bind try_except];
      [|reflexivity].
    now destruct (ft =? "")%string.
Qed.

(** ** The row number and a complete run *)

Lemma given_strip (s : string) : given (Some s) = true <-> Py.strip s <> EmptyString.
Proof.
  cbn [given truthy]. destruct (String.eqb_spec (Py.strip s) "") as [E|N].
  - rewrite andb_false_r. split; [discriminate|contradiction].
  - destruct (String.eqb_spec s "") as [->|_]; [now elim N|].
    split; [intros _; exact N|reflexivity].
Qed.

Lemma emitted_formula {lib : Openpyxl} (row_number : string) (start_row end_row : Z)
      (r : rule) (range_string : string) (cf : cf_rule) :
  emitted row_number start_row end_row r = Some (range_string, cf) ->
  exists s, formula r = VStr s /\ cf_formula cf = Py.replace "@ROW@" row_number s.
Proof.
  unfold emitted, directive.
  destruct (truthy (formula r)); [|discriminate].
  destruct (formula r) as [|s|n|b]; try discriminate.
  cbn [replace_method bind].
  destruct (Py.replace "@ROW@" row_number s =? "")%string; [discriminate|].
  destruct (get_color_hex (bg_color r) (bg_rgb r)) as [bg|e]; [|discriminate].
  destruct (get_color_hex (font_color r) (font_rgb r)) as [fg|e]; [|discriminate].
  cbn [bind].
  destruct (negb (some_nonempty bg) && negb (some_nonempty fg)); [discriminate|].
  destruct (style_color bg) as [fill|e]; [|discriminate].
  destruct (style_color fg) as [font|e]; [|discriminate].
  cbn [bind]. destruct (range_ok _); [|discriminate].
  intros [= _ <-]. now exists s.
Qed.

(** C6: the text that replaces the placeholder is the row-number text,
    stripped, when that text is not blank; else it is the first row, when one
    is given; with neither the run ends with [MissingRowSpecification],
    whatever the rules file and the target are. *)
Theorem row_number_priority :
  (forall s, given (Some s) = true <-> Py.strip s <> EmptyString)
  /\ (forall (lib : Openpyxl) rules_file target_file s first_row last_row mode,
         Py.strip s <> EmptyString ->
         apply_cf_rules rules_file target_file (Some s) first_row last_row mode
         = run_rules (Py.strip s) rules_file target_file first_row last_row mode)
  /\ (forall (lib : Openpyxl) rules_file target_file row_number_input f last_row mode,
         given row_number_input = false -> f <> 0 ->
         apply_cf_rules rules_file target_file row_number_input (Some f) last_row mode
         = run_rules (Py.str_of_int f) rules_file target_file (Some f) last_row mode)
  /\ (forall (lib : Openpyxl) rules_file target_file row_number_input first_row last_row
             mode,
         given row_number_input = false -> first_row = None \/ first_row = Some 0 ->
         apply_cf_rules rules_file target_file row_number_input first_row last_row mode
         = Reported MissingRowSpecification)
  /\ (forall (lib : Openpyxl) row_number rules_file target_file first_row last_row mode
             out,
         run_rules row_number rules_file target_file first_row last_row mode
         = Returned out ->
         res_row_number out = row_number)
  /\ (forall (lib : Openpyxl) row_number start_row end_row r range_string cf,
         emitted row_number start_row end_row r = Some (range_string, cf) ->
         exists s, formula r = VStr s /\ cf_formula cf = Py.replace "@ROW@" row_number s).
Proof.
  split; [exact given_strip|]. split; [|split; [|split; [|split]]].
  - intros lib rules_file target_file s first_row last_row mode H.
    apply given_strip in H. unfold apply_cf_rules, row_number_of. now rewrite H.
  - intros lib rules_file target_file rni f last_row mode G N.
    unfold apply_cf_rules, row_number_of. rewrite G. cbn [some_nonzero truthy].
    destruct (Z.eqb_spec f 0); [contradiction|reflexivity].
  - intros lib rules_file target_file rni first_row last_row mode G [->| ->];
      unfold apply_cf_rules, row_number_of; now rewrite G.
  - intros lib rn rules_file target_file first_row last_row mode out H.
    destruct (run_rules_inv _ _ _ _ _ _ _ H) as [sh [rules [wb0 [st [_ [_ [_ [_ ->]]]]]]]].
    reflexivity.
  - intros lib rn sr er r rg cf. apply emitted_formula.
Qed.

Definition blank (v : value) : Prop := v = VNone \/ v = VStr "".

(** C1: the table with the one record (A, C, "=A@ROW@>0", Y, Red, four empty
    fields, "Sheet1"), first row 13, last row 15, no row-number text and the
    mode "Create New File" give a workbook with the one sheet "Sheet1" and on
    it the one directive over "A13:C15" with the formula "=A13>0", the stop
    flag, the fill FF0000 and no font colour; one rule applied, none
    skipped. The library is taken to accept that colour, that range and
    that title. *)
Theorem single_rule_run (lib : Openpyxl) (header : list value)
        (e5 e6 e7 e8 : value) (row_number_input : option string)
        (target_file : option workbook) :
  color_ok "FF0000" = true ->
  range_ok "A13:C15" = true ->
  new_title [] (VStr "Sheet1") = Ok "Sheet1" ->
  blank e5 -> blank e6 -> blank e7 -> blank e8 ->
  given row_number_input = false ->
  exists out,
    apply_cf_rules
      [("CF Rules",
        [header;
         [VStr "A"; VStr "C"; VStr "=A@ROW@>0"; VStr "Y"; VStr "Red"; e5; e6; e7; e8;
          VStr "Sheet1"]])]
      target_file row_number_input (Some 13) (Some 15) "Create New File"
    = Returned out
    /\ output out
       = [{| title := "Sheet1";
             conditional_formatting :=
               [("A13:C15",
                 {| cf_formula := "=A13>0"; cf_stopIfTrue := true;
                    cf_fill := Some "FF0000"; cf_font := None |})] |}]
    /\ res_rules_applied out = 1%nat
    /\ res_rules_skipped out = 0%nat.
Proof.
  intros Hc Hr Ht B5 B6 B7 B8 G.
  unfold apply_cf_rules, row_number_of. rewrite G.
  cbn [some_nonzero truthy Z.eqb negb option_map].
  destruct B5 as [-> | ->], B6 as [-> | ->], B7 as [-> | ->], B8 as [-> | ->];
    unfold run_rules; cbn; unfold create_sheet; cbn; rewrite Ht; cbn;
    unfold apply_rule, try_rule, style_color, Color, add; cbn; rewrite Hc; cbn;
    rewrite Hr; cbn; eexists; repeat split.
Qed.

(** ** Clearing before applying *)

(** [sheet_index] looks at the titles only. *)
Fixpoint find_title (name : value) (titles : list string) : option nat :=
  match titles with
  | [] => None
  | t :: titles' =>
      if py_eq (VStr t) name then Some O else option_map S (find_title name titles')
  end.

Lemma sheet_index_names (name : value) (wb : workbook) :
  sheet_index name wb = find_title name (sheetnames wb).
Proof.
  induction wb as [|s wb IH]; [reflexivity|].
  cbn [sheet_index sheetnames map find_title]. fold (sheetnames wb). now rewrite IH.
Qed.

Lemma find_title_bound (name : value) (titles : list string) (i : nat) :
  find_title name titles = Some i ->
  (i < List.length titles)%nat
  /\ exists t, nth_error titles i = Some t /\ py_eq (VStr t) name = true.
Proof.
  revert i. induction titles as [|t titles IH]; intros i; cbn [find_title];
    [discriminate|].
  destruct (py_eq (VStr t) name) eqn:E.
  - intros [= <-]. split; [cbn [List.length]; lia|]. now exists t.
  - destruct (find_title name titles) as [j|]; [|discriminate].
    cbn [option_map]. intros [= <-]. destruct (IH j eq_refl) as [L X].
    split; [cbn [List.length]; lia|exact X].
Qed.

Lemma find_title_app (name : value) (a b : list string) :
  find_title name (a ++ b)
  = match find_title name a with
    | Some i => Some i
    | None => option_map (Nat.add (List.length a)) (find_title name b)
    end.
Proof.
  induction a as [|t a IH]; cbn [app find_title List.length].
  - now destruct (find_title name b).
  - destruct (py_eq (VStr t) name); [reflexivity|]. rewrite IH.
    destruct (find_title name a); [reflexivity|].
    now destruct (find_title name b).
Qed.

Lemma py_eq_text (t : string) (v : value) : py_eq (VStr t) v = true -> v = VStr t.
Proof.
  destruct v as [|s|n|b]; cbn; try discriminate.
  intros H. apply String.eqb_eq in H. now subst.
Qed.

(** A workbook [wb'] that keeps the titles of [wb] in place and may have
    more sheets after them. *)
Definition keeps_titles (wb wb' : workbook) : Prop :=
  exists extra, sheetnames wb' = (sheetnames wb ++ extra)%list.

Lemma keeps_titles_trans (a b c : workbook) :
  keeps_titles a b -> keeps_titles b c -> keeps_titles a c.
Proof.
  intros [x X] [y Y]. exists (x ++ y)%list. now rewrite Y, X, app_assoc.
Qed.

Lemma keeps_titles_length (wb wb' : workbook) :
  keeps_titles wb wb' -> (List.length wb <= List.length wb')%nat.
Proof.
  intros [x X]. apply (f_equal (@List.length string)) in X.
  unfold sheetnames in X. rewrite length_app, !length_map in X. lia.
Qed.

Lemma keeps_titles_found (wb wb' : workbook) (name : value) (i : nat) :
  keeps_titles wb wb' -> sheet_index name wb = Some i -> sheet_index name wb' = Some i.
Proof.
  intros [x X]. rewrite !sheet_index_names, X, find_title_app. now intros ->.
Qed.

Lemma keeps_titles_old (wb wb' : workbook) (name : value) (i : nat) :
  keeps_titles wb wb' -> (i < List.length wb)%nat ->
  sheet_index name wb' = Some i -> sheet_index name wb = Some i.
Proof.
  intros [x X] L. rewrite !sheet_index_names, X, find_title_app.
  destruct (find_title name (sheetnames wb)) as [j|]; [trivial|].
  destruct (find_title name x) as [j|]; cbn; [|discriminate].
  intros [= <-]. unfold sheetnames in L. rewrite length_map in L. lia.
Qed.

Lemma extend_sheet_title (ds : list (string * cf_rule)) (s : sheet) :
  title (extend_sheet ds s) = title s.
Proof. reflexivity. Qed.

Section Clearing.

Context {lib : Openpyxl}.
Variable row_number : string.
Variables start_row end_row : Z.

Local Abbreviation group_directives := (directives row_number start_row end_row).
Local Abbreviation sheet_turn := (apply_sheet row_number start_row end_row).
Local Abbreviation sheet_turns := (apply_sheets row_number start_row end_row).

(** The sheet [s] with exactly the directives of [rules]. *)
Definition refilled (rules : list rule) (s : sheet) : sheet :=
  {| title := title s; conditional_formatting := group_directives rules |}.

Lemma get_or_create_found (name : value) (wb : workbook) (i : nat) :
  sheet_index name wb = Some i ->
  get_or_create name wb = Ok (i, alter_sheet clear_rules i wb).
Proof. intros H. unfold get_or_create. now rewrite H. Qed.

Lemma get_or_create_new (name : value) (wb wb1 : workbook) (ws : nat) :
  sheet_index name wb = None ->
  get_or_create name wb = Ok (ws, wb1) ->
  ws = List.length wb /\ exists s, wb1 = (wb ++ [s])%list.
Proof.
  intros H. unfold get_or_create, create_sheet. rewrite H.
  destruct (new_title (sheetnames wb) name) as [t|e]; cbn [bind]; [|discriminate].
  intros [= <- <-]. split; [reflexivity|]. eauto.
Qed.

(** One group: the titles stay, a sheet found by its name is refilled, and
    no other sheet that was there changes. *)
Lemma apply_sheet_keeps (st st' : loop_state) (name : value) (rules : list rule) :
  sheet_turn st (name, rules) = Ok st' -> keeps_titles (wb_new st) (wb_new st').
Proof.
  intros H. destruct (apply_sheet_inv _ _ _ _ _ _ _ H) as [ws [wb [G ->]]].
  cbn [wb_new]. unfold keeps_titles.
  rewrite alter_sheet_names by apply extend_sheet_title.
  destruct (sheet_index name (wb_new st)) as [i|] eqn:E.
  - rewrite (get_or_create_found _ _ _ E) in G. injection G as <- <-.
    exists []. rewrite app_nil_r. now apply alter_sheet_names.
  - destruct (get_or_create_new _ _ _ _ E G) as [_ [s ->]].
    exists [title s]. unfold sheetnames. now rewrite map_app.
Qed.

Lemma apply_sheet_found (st st' : loop_state) (name : value) (rules : list rule)
      (i : nat) :
  sheet_index name (wb_new st) = Some i ->
  sheet_turn st (name, rules) = Ok st' ->
  nth_error (wb_new st') i = option_map (refilled rules) (nth_error (wb_new st) i).
Proof.
  intros E H. destruct (apply_sheet_inv _ _ _ _ _ _ _ H) as [ws [wb [G ->]]].
  rewrite (get_or_create_found _ _ _ E) in G. injection G as <- <-.
  cbn [wb_new]. rewrite alter_sheet_twice, alter_sheet_same.
  now destruct (nth_error (wb_new st) i).
Qed.

Lemma apply_sheet_other (st st' : loop_state) (name : value) (rules : list rule)
      (j : nat) :
  (j < List.length (wb_new st))%nat ->
  sheet_index name (wb_new st) <> Some j ->
  sheet_turn st (name, rules) = Ok st' ->
  nth_error (wb_new st') j = nth_error (wb_new st) j.
Proof.
  intros L N H. destruct (apply_sheet_inv _ _ _ _ _ _ _ H) as [ws [wb [G ->]]].
  cbn [wb_new]. destruct (sheet_index name (wb_new st)) as [i|] eqn:E.
  - rewrite (get_or_create_found _ _ _ E) in G. injection G as <- <-.
    assert (i <> j) by congruence. now rewrite !alter_sheet_other.
  - destruct (get_or_create_new _ _ _ _ E G) as [-> [s ->]].
    rewrite alter_sheet_other by lia. now apply nth_error_app1.
Qed.

Lemma apply_sheets_keeps (groups : list (value * list rule)) (st st' : loop_state) :
  sheet_turns st groups = Ok st' -> keeps_titles (wb_new st) (wb_new st').
Proof.
  revert st. induction groups as [|[name rules] groups IH]; intros st H.
  - injection H as <-. exists []. now rewrite app_nil_r.
  - cbn [apply_sheets] in H.
    destruct (sheet_turn st (name, rules)) as [st1|e] eqn:E; cbn [bind] in H;
      [|discriminate].
    exact (keeps_titles_trans _ _ _ (apply_sheet_keeps _ _ _ _ E) (IH _ H)).
Qed.

Lemma apply_sheets_other (groups : list (value * list rule)) (st st' : loop_state)
      (j : nat) :
  (j < List.length (wb_new st))%nat ->
  (forall name rules, In (name, rules) groups -> sheet_index name (wb_new st) <> Some j) ->
  sheet_turns st groups = Ok st' ->
  nth_error (wb_new st') j = nth_error (wb_new st) j.
Proof.
  revert st. induction groups as [|[name rules] groups IH]; intros st L N H.
  - now injection H as <-.
  - cbn [apply_sheets] in H.
    destruct (sheet_turn st (name, rules)) as [st1|e] eqn:E; cbn [bind] in H;
      [|discriminate].
    pose proof (apply_sheet_keeps _ _ _ _ E) as K.
    pose proof (keeps_titles_length _ _ K) as KL.
    rewrite (IH st1); [| lia | | exact H].
    + apply (apply_sheet_other _ _ _ _ _ L (N name rules (or_introl eq_refl)) E).
    + intros k rs I C. apply (N k rs (or_intror I)).
      now apply (keeps_titles_old _ _ _ _ K L).
Qed.

(** No two groups have the same key. *)
Definition distinct_keys (groups : list (value * list rule)) : Prop :=
  ForallOrdPairs (fun a b => py_eq (fst a) (fst b) = false) groups.

(** The loop over the groups leaves on a sheet that was there under the
    name of a group exactly the directives of that group. *)
Lemma apply_sheets_refills (groups : list (value * list rule)) (st st' : loop_state)
      (name : value) (rules : list rule) (i : nat) :
  distinct_keys groups ->
  In (name, rules) groups ->
  sheet_index name (wb_new st) = Some i ->
  sheet_turns st groups = Ok st' ->
  nth_error (wb_new st') i = option_map (refilled rules) (nth_error (wb_new st) i).
Proof.
  revert st. induction groups as [|[k rs] groups IH]; intros st D I S H; [destruct I|].
  cbn [apply_sheets] in H.
  destruct (sheet_turn st (k, rs)) as [st1|e] eqn:E; cbn [bind] in H; [|discriminate].
  pose proof (apply_sheet_keeps _ _ _ _ E) as K.
  inversion D as [|a l Dh Dt]; subst.
  destruct I as [[= -> ->]|I].
  - rewrite <- (apply_sheet_found _ _ _ _ _ S E).
    pose proof S as B. rewrite sheet_index_names in B.
    apply find_title_bound in B. destruct B as [L [t [_ T]]].
    unfold sheetnames in L. rewrite length_map in L.
    apply (apply_sheets_other groups st1 st' i); [|clear H|exact H].
    + pose proof (keeps_titles_length _ _ K). lia.
    + intros k' rs' I' C. rewrite Forall_forall in Dh. specialize (Dh _ I').
      cbn [fst] in Dh. pose proof (keeps_titles_found _ _ _ _ K S) as S1.
      rewrite sheet_index_names in S1, C.
      apply find_title_bound in S1, C.
      destruct S1 as [_ [t1 [N1 T1]]], C as [_ [t2 [N2 T2]]].
      assert (t2 = t1) by congruence. subst t2.
      apply py_eq_text in T1, T2. subst name k'. cbn [py_eq] in Dh.
      now rewrite String.eqb_refl in Dh.
  - rewrite (IH st1 Dt I (keeps_titles_found _ _ _ _ K S) H).
    destruct (sheet_index k (wb_new st)) as [j|] eqn:Sk.
    + destruct (Nat.eq_dec j i) as [->|Nji].
      * rewrite (apply_sheet_found _ _ _ _ _ Sk E).
        now destruct (nth_error (wb_new st) i).
      * rewrite (apply_sheet_other st st1 k rs i); [reflexivity| |congruence|exact E].
        rewrite sheet_index_names in S. apply find_title_bound in S.
        unfold sheetnames in S. rewrite length_map in S. tauto.
    + rewrite (apply_sheet_other st st1 k rs i); [reflexivity| |congruence|exact E].
      rewrite sheet_index_names in S. apply find_title_bound in S.
      unfold sheetnames in S. rewrite length_map in S. tauto.
Qed.

End Clearing.

Lemma group_add_keys (P : value -> Prop) (name : value) (r : rule)
      (groups : list (value * list rule)) :
  P name -> Forall (fun g => P (fst g)) groups ->
  Forall (fun g => P (fst g)) (group_add name r groups).
Proof.
  intros Hn F. induction F as [|[k rs] groups Hk F IH]; cbn [group_add].
  - constructor; [exact Hn|constructor].
  - destruct (py_eq k name); constructor; assumption.
Qed.

Lemma group_add_distinct (name : value) (r : rule) (groups : list (value * list rule)) :
  distinct_keys groups -> distinct_keys (group_add name r groups).
Proof.
  unfold distinct_keys. intros D.
  induction D as [|[k rs] groups Hk D IH]; cbn [group_add].
  - constructor; constructor.
  - destruct (py_eq k name) eqn:E.
    + constructor; assumption.
    + constructor; [|exact IH].
      apply (group_add_keys (fun k' => py_eq k k' = false)); assumption.
Qed.

Lemma group_rules_distinct (rules : list rule) : distinct_keys (group_rules rules).
Proof.
  unfold group_rules.
  assert (G : forall groups,
             distinct_keys groups ->
             distinct_keys
               (fold_left (fun groups r => group_add (sheet_name_of r) r groups)
                          rules groups)).
  { induction rules as [|r rules IH]; intros groups D; cbn [fold_left]; [exact D|].
    apply IH. now apply group_add_distinct. }
  apply G. constructor.
Qed.

(** [wb[name].conditional_formatting], when the workbook has a sheet of
    that name. *)
Definition rules_on (name : value) (wb : workbook) : option (list (string * cf_rule)) :=
  match sheet_index name wb with
  | Some i => option_map conditional_formatting (nth_error wb i)
  | None => None
  end.

Lemma run_update_refills {lib : Openpyxl} (row_number : string)
      (rules_file : rules_workbook) (wb : workbook) (first_row last_row : option Z)
      (out : result) (name : value) (rules : list rule) (i : nat) :
  run_rules row_number rules_file (Some wb) first_row last_row "Update Existing File"
  = Returned out ->
  In (name, rules) (res_rules_by_sheet out) ->
  sheet_index name wb = Some i ->
  sheet_index name (output out) = Some i
  /\ rules_on name (output out)
     = Some (directives row_number (res_start_row out) (res_end_row out) rules).
Proof.
  intros H I S.
  destruct (run_rules_inv _ _ _ _ _ _ _ H) as [sh [rs [wb0 [st [_ [_ [T [A ->]]]]]]]].
  cbn [String.eqb Ascii.eqb Bool.eqb] in T. injection T as <-.
  cbn [res_rules_by_sheet output res_start_row res_end_row] in *.
  pose proof (apply_sheets_keeps _ _ _ _ _ _ A) as K. cbn [wb_new] in K.
  pose proof (keeps_titles_found _ _ _ _ K S) as S'. split; [exact S'|].
  unfold rules_on. rewrite S'.
  rewrite (apply_sheets_refills _ _ _ _
             {| wb_new := wb; rules_applied := 0; rules_skipped := 0 |} _ _ _ _
             (group_rules_distinct rs) I S A).
  cbn [wb_new]. rewrite sheet_index_names in S. apply find_title_bound in S.
  destruct S as [L _]. unfold sheetnames in L. rewrite length_map in L.
  destruct (nth_error wb i) as [s|] eqn:E; [reflexivity|].
  apply nth_error_None in E. lia.
Qed.

(** C5: in update mode a sheet of the target that a group of the rule table
    names carries after the run exactly the directives of that group,
    whatever rules it carried before; so a second run of the same table on
    the workbook of the first leaves on the sheet the directives of the
    second run, which are those of the first: nothing accumulates. *)
Theorem update_clears_before_apply :
  (forall (lib : Openpyxl) rules_file wb row_number_input first_row last_row out name
          rules i,
      apply_cf_rules rules_file (Some wb) row_number_input first_row last_row
        "Update Existing File" = Returned out ->
      In (name, rules) (res_rules_by_sheet out) ->
      sheet_index name wb = Some i ->
      rules_on name (output out)
      = Some (directives (res_row_number out) (res_start_row out) (res_end_row out) rules))
  /\ (forall (lib : Openpyxl) rules_file wb row_number_input first_row last_row out1 out2
             name rules i,
         apply_cf_rules rules_file (Some wb) row_number_input first_row last_row
           "Update Existing File" = Returned out1 ->
         apply_cf_rules rules_file (Some (output out1)) row_number_input first_row
           last_row "Update Existing File" = Returned out2 ->
         In (name, rules) (res_rules_by_sheet out2) ->
         sheet_index name (output out1) = Some i ->
         rules_on name (output out2)
         = Some (directives (res_row_number out2) (res_start_row out2) (res_end_row out2)
                   rules)
         /\ (sheet_index name wb <> None ->
             rules_on name (output out2) = rules_on name (output out1))).
Proof.
  assert (One : forall (lib : Openpyxl) rules_file wb row_number_input first_row last_row
                       out name rules i,
             apply_cf_rules rules_file (Some wb) row_number_input first_row last_row
               "Update Existing File" = Returned out ->
             In (name, rules) (res_rules_by_sheet out) ->
             sheet_index name wb = Some i ->
             rules_on name (output out)
             = Some (directives (res_row_number out) (res_start_row out)
                       (res_end_row out) rules)).
  { intros lib rules_file wb rni first_row last_row out name rules i H I S.
    destruct (apply_cf_rules_inv _ _ _ _ _ _ _ H) as [rn [_ R]].
    destruct (run_update_refills _ _ _ _ _ _ _ _ _ R I S) as [_ E].
    destruct (run_rules_inv _ _ _ _ _ _ _ R) as [? [? [? [? [_ [_ [_ [_ ->]]]]]]]].
    exact E. }
  split; [exact One|].
  intros lib rules_file wb rni first_row last_row out1 out2 name rules i H1 H2 I S.
  split; [exact (One _ _ _ _ _ _ _ _ _ _ H2 I S)|].
  intros Sw. destruct (sheet_index name wb) as [j|] eqn:E; [clear Sw|now elim Sw].
  rewrite (One _ _ _ _ _ _ _ _ _ _ H2 I S).
  destruct (apply_cf_rules_inv _ _ _ _ _ _ _ H1) as [rn1 [N1 R1]].
  destruct (apply_cf_rules_inv _ _ _ _ _ _ _ H2) as [rn2 [N2 R2]].
  assert (rn2 = rn1) by congruence. subst rn2.
  destruct (run_rules_inv _ _ _ _ _ _ _ R1) as [sh1 [rs1 [? [? [G1 [P1 [_ [_ X1]]]]]]]].
  destruct (run_rules_inv _ _ _ _ _ _ _ R2) as [sh2 [rs2 [? [? [G2 [P2 [_ [_ X2]]]]]]]].
  assert (sh2 = sh1) by congruence. subst sh2.
  assert (rs2 = rs1) by congruence. subst rs2.
  assert (I1 : In (name, rules) (res_rules_by_sheet out1)).
  { rewrite X1. rewrite X2 in I. exact I. }
  rewrite (One _ _ _ _ _ _ _ _ _ _ H1 I1 E).
  rewrite X1, X2. reflexivity.
Qed.

(** ** The statements at concrete inputs *)

Definition demo_rules : rules_workbook :=
  [("CF Rules",
    [[VStr "Start Column"; VStr "End Column"; VStr "Formula"; VStr "Stop If True"];
     [VStr "A"; VStr "C"; VStr "=A@ROW@>0"; VStr "Y"; VStr "Red"; VNone; VNone; VNone;
      VNone; VStr "Sheet1"];
     [VNone; VStr "C"; VStr "=1"; VNone; VStr "Red"; VNone; VNone; VNone; VNone; VNone];
     [VStr "B"; VStr "B"; VStr "=B@ROW@=1"; VStr "y"; VNone; VNone; VNone; VStr "0,0,255";
      VNone; VNone];
     [VStr "D"; VStr "D"; VStr "=D@ROW@=1"; VNone; VNone; VNone; VNone; VNone; VNone;
      VStr "Other"]])].

Definition demo_target : workbook :=
  [{| title := "Data"; conditional_formatting := [] |};
   {| title := "Sheet1";
      conditional_formatting :=
        [("A1:A9", {| cf_formula := "=A1>5"; cf_stopIfTrue := false;
                      cf_fill := Some "00FF00"; cf_font := None |})] |}].

Definition demo_blank_rules : rules_workbook :=
  [("CF Rules", [[VStr "Start Column"]; [VNone; VStr "x"]; [VStr ""; VStr "y"]])].

Lemma single_rule_run_witness :
  exists out,
    @apply_cf_rules plain_library
      [("CF Rules",
        [[VStr "Start Column"];
         [VStr "A"; VStr "C"; VStr "=A@ROW@>0"; VStr "Y"; VStr "Red"; VNone; VStr "";
          VNone; VStr ""; VStr "Sheet1"]])]
      None (Some "  ") (Some 13) (Some 15) "Create New File"
    = Returned out
    /\ output out
       = [{| title := "Sheet1";
             conditional_formatting :=
               [("A13:C15",
                 {| cf_formula := "=A13>0"; cf_stopIfTrue := true;
                    cf_fill := Some "FF0000"; cf_font := None |})] |}]
    /\ res_rules_applied out = 1%nat
    /\ res_rules_skipped out = 0%nat.
Proof.
  apply (single_rule_run plain_library [VStr "Start Column"] VNone (VStr "") VNone
           (VStr "") (Some "  ") None);
    try reflexivity; try (left; reflexivity); right; reflexivity.
Defined.

Lemma update_clears_before_apply_witness :
  exists out1 out2,
    @apply_cf_rules plain_library demo_rules (Some demo_target) None (Some 13) (Some 15)
      "Update Existing File" = Returned out1
    /\ @apply_cf_rules plain_library demo_rules (Some (output out1)) None (Some 13)
         (Some 15) "Update Existing File" = Returned out2
    /\ rules_on (VStr "Sheet1") (output out2) = rules_on (VStr "Sheet1") (output out1)
    /\ option_map (@List.length _) (rules_on (VStr "Sheet1") (output out2)) = Some 2%nat.
Proof.
  eexists. eexists.
  split; [vm_compute; reflexivity|]. split; [vm_compute; reflexivity|].
  split.
  - eapply (proj2 (proj2 update_clears_before_apply plain_library demo_rules demo_target
                     None (Some 13) (Some 15) _ _ (VStr "Sheet1") _ 1%nat _ _ _ _)).
    vm_compute. discriminate.
  - vm_compute. reflexivity.
  Unshelve.
  all: try (vm_compute; reflexivity).
  2: (cbn; left; reflexivity).
Defined.

Lemma row_number_priority_witness :
  @apply_cf_rules plain_library demo_rules None (Some " 7 ") (Some 13) (Some 15)
    "Create New File"
  = @run_rules plain_library "7" demo_rules None (Some 13) (Some 15) "Create New File"
  /\ @apply_cf_rules plain_library demo_rules None (Some " ") (Some 13) (Some 15)
       "Create New File"
     = @run_rules plain_library "13" demo_rules None (Some 13) (Some 15) "Create New File"
  /\ @apply_cf_rules plain_library demo_rules None (Some " ") None (Some 15)
       "Create New File"
     = Reported MissingRowSpecification.
Proof.
  destruct row_number_priority as [_ [P1 [P2 [P3 _]]]].
  split; [|split].
  - apply (P1 plain_library demo_rules None " 7 " (Some 13) (Some 15) "Create New File").
    vm_compute. discriminate.
  - apply (P2 plain_library demo_rules None (Some " ") 13 (Some 15) "Create New File").
    + reflexivity.
    + discriminate.
  - apply (P3 plain_library demo_rules None (Some " ") None (Some 15) "Create New File").
    + reflexivity.
    + left. reflexivity.
Defined.

Lemma read_rows_start_column_witness :
  (exists rules,
      read_rows [] [[VNone; VStr "x"]; [VStr "A"; VStr "C"; VStr "=1"; VStr "Y"];
                    [VInt 0; VStr "y"]] = Ok rules
      /\ List.length rules = 1%nat)
  /\ @apply_cf_rules plain_library demo_blank_rules None None (Some 13) (Some 15)
       "Create New File"
     = Reported EmptyRuleSetError
  /\ read_row [] [VNone; VStr "x"] = Ok [].
Proof.
  destruct read_rows_start_column as [R [D [E _]]].
  split; [|split].
  - destruct (R [[VNone; VStr "x"]; [VStr "A"; VStr "C"; VStr "=1"; VStr "Y"];
                 [VInt 0; VStr "y"]]) as [rules [H F]].
    + repeat constructor; try discriminate; cbn; intros; lia.
    + exists rules. split; [exact H|].
      apply Forall2_length in F. now rewrite <- F.
  - apply (E plain_library demo_blank_rules [VStr "Start Column"]
             [[VNone; VStr "x"]; [VStr ""; VStr "y"]] None None (Some 13) (Some 15)
             "Create New File" "13"); try reflexivity.
    repeat constructor.
    + exists VNone, [VStr "x"]. split; reflexivity.
    + exists (VStr ""), [VStr "y"]. split; reflexivity.
  - apply D. reflexivity.
Defined.

Lemma every_rule_counted_once_witness :
  (exists out,
      @apply_cf_rules plain_library demo_rules None None (Some 13) (Some 15)
        "Create New File" = Returned out
      /\ (res_rules_applied out + res_rules_skipped out = List.length (res_rules out))%nat
      /\ res_rules_applied out = 2%nat /\ res_rules_skipped out = 1%nat)
  /\ (forall st,
         @apply_rule plain_library "13" 13 15 0 st
           {| start_col := VStr "D"; end_col := VStr "D"; formula := VStr "=D@ROW@=1";
              stop_if_true := false; bg_color := VNone; bg_rgb := VNone;
              font_color := VNone; font_rgb := VNone; number_format := VNone;
              worksheet := VStr "Other" |}
         = skip st).
Proof.
  destruct every_rule_counted_once as [C [_ [_ N]]].
  split.
  - eexists. split; [vm_compute; reflexivity|]. split.
    + apply (C plain_library demo_rules None None (Some 13) (Some 15) "Create New File").
      vm_compute. reflexivity.
    + split; reflexivity.
  - intros st. apply N; reflexivity.
Defined.

(** * Further properties of the code *)

(** ** Colours: what [get_color_hex] and [parse_rgb] do with their cells *)

(** A cell that is empty or holds a text. *)
Definition textual (v : value) : bool :=
  match v with
  | VNone | VStr _ => true
  | VInt _ | VBool _ => false
  end.

Definition upper_hex (c : ascii) : bool :=
  Py.isdigit c || ((65 <=? Py.ord c) && (Py.ord c <=? 70)).

(** Six upper-case hexadecimal digits. *)
Definition six_hex (h : string) : bool :=
  (String.length h =? 6)%nat && forallb upper_hex (list_ascii_of_string h).

Definition hex_value (c : ascii) : Z :=
  if Py.isdigit c then Py.ord c - 48 else Py.ord c - 55.

(** The channel [i] (0, 1 or 2) read back from a colour [RRGGBB]. *)
Definition channel (h : string) (i : nat) : option Z :=
  match String.get (2 * i) h, String.get (2 * i + 1) h with
  | Some hi, Some lo => Some (16 * hex_value hi + hex_value lo)
  | _, _ => None
  end.

Lemma append_nonempty (a : string) (c : ascii) (b : string) :
  (a ++ String c b)%string <> EmptyString.
Proof. destruct a; discriminate. Qed.

Lemma format_02X_nonempty (n : Z) : Py.format_02X n <> EmptyString.
Proof.
  unfold Py.format_02X. destruct (n <? 0); [discriminate|].
  unfold Py.zfill. destruct (Py.hex_upper _) as [|c d].
  - cbn. discriminate.
  - apply append_nonempty.
Qed.

Lemma rgb_of_parts_nonempty (p1 p2 p3 h : string) :
  rgb_of_parts p1 p2 p3 = Ok h -> h <> EmptyString.
Proof.
  unfold rgb_of_parts.
  destruct (Py.int (Py.strip p1)) as [r|e]; [|discriminate].
  destruct (Py.int (Py.strip p2)) as [g|e]; [|discriminate].
  destruct (Py.int (Py.strip p3)) as [b|e]; [|discriminate].
  cbn [bind]. intros [= <-] E.
  pose proof (format_02X_nonempty r) as N.
  destruct (Py.format_02X r); [now elim N|discriminate E].
Qed.

Lemma parse_rgb_some (s h : string) :
  parse_rgb (VStr s) = Ok (Some h) ->
  h <> EmptyString /\ Py.strip s <> EmptyString /\ s <> EmptyString.
Proof.
  intros H. assert (B : Py.strip s <> EmptyString).
  { intros B. rewrite parse_rgb_text, (blank_rgb_tokens s B) in H. discriminate H. }
  split; [|split; [exact B|intros ->; now apply B]].
  rewrite parse_rgb_text in H.
  destruct (rgb_tokens s) as [|p1 [|p2 [|p3 [|p4 l]]]]; try discriminate H.
  destruct (rgb_of_parts p1 p2 p3) as [x|e] eqn:E; [|discriminate H].
  cbn in H. injection H as <-. exact (rgb_of_parts_nonempty _ _ _ _ E).
Qed.

(** [get_color_hex] on an RGB text that is not blank. *)
Lemma get_color_hex_given (name : value) (s : string) :
  Py.strip s <> EmptyString ->
  get_color_hex name (VStr s)
  = (hex_color <- parse_rgb (VStr s) ;;
     if some_nonempty hex_color then Ok hex_color else color_by_name name).
Proof.
  intros Hb. assert (Hs : s <> EmptyString) by (intros ->; now apply Hb).
  unfold get_color_hex. cbn [truthy strip_method bind].
  destruct (String.eqb_spec s "") as [E|_]; [contradiction|].
  destruct (String.eqb_spec (Py.strip s) "") as [E|_]; [contradiction|].
  reflexivity.
Qed.

(** X1: an RGB text that parses decides the colour whatever the name cell
    holds; the name is not looked at, so even a number in the name cell
    raises nothing. *)
Theorem rgb_text_wins (name : value) (s h : string) :
  parse_rgb (VStr s) = Ok (Some h) -> get_color_hex name (VStr s) = Ok (Some h).
Proof.
  intros H. destruct (parse_rgb_some _ _ H) as [Hh [Hb Hs]].
  rewrite (get_color_hex_given name s Hb), H. cbn [bind some_nonempty].
  destruct (String.eqb_spec h "") as [E|_]; [contradiction|reflexivity].
Qed.

Lemma rgb_text_wins_witness :
  get_color_hex (VInt 7) (VStr "0,128,255") = Ok (Some "0080FF")
  /\ get_color_hex (VStr "Red") (VStr "0,128,255") = Ok (Some "0080FF").
Proof.
  split; apply rgb_text_wins; reflexivity.
Defined.

Lemma color_by_name_outcome (name : value) :
  textual name = true ->
  exists o, color_by_name name = Ok o /\ o <> Some EmptyString.
Proof.
  destruct name as [|n| |]; try discriminate; intros _.
  - exists None. split; [reflexivity|discriminate].
  - rewrite color_by_name_text. eexists. split; [reflexivity|].
    intros E. apply dict_get_In in E.
    pose proof color_map_usable as U. rewrite forallb_forall in U.
    specialize (U _ E). cbn in U. rewrite !andb_false_r in U. discriminate U.
Qed.

(** X2: on cells that are empty or hold text [get_color_hex] raises
    nothing and never returns the empty text; a number other than 0 in the
    RGB cell raises [AttributeError], as does one in the name cell once the
    RGB text has not given a colour. *)
Theorem get_color_hex_cells :
  (forall name rgb,
      textual name = true -> textual rgb = true ->
      exists o, get_color_hex name rgb = Ok o /\ o <> Some EmptyString)
  /\ (forall name n, n <> 0 -> get_color_hex name (VInt n) = Raise AttributeError)
  /\ (forall n rgb,
         n <> 0 -> textual rgb = true -> parse_rgb rgb = Ok None ->
         get_color_hex (VInt n) rgb = Raise AttributeError).
Proof.
  split; [|split].
  - intros name rgb Tn Tr. destruct rgb as [|s| |]; try discriminate.
    + unfold get_color_hex. cbn [truthy bind]. now apply color_by_name_outcome.
    + destruct (parse_rgb (VStr s)) as [[h|]|e] eqn:P.
      * destruct (parse_rgb_some _ _ P) as [Hh [Hb _]].
        rewrite (get_color_hex_given name s Hb), P. cbn [bind some_nonempty].
        destruct (String.eqb_spec h "") as [E|_]; [contradiction|].
        eexists. split; [reflexivity|]. now intros [= ->].
      * unfold get_color_hex. cbn [truthy strip_method bind].
        destruct (negb (s =? "")%string); cbn [bind];
          [|now apply color_by_name_outcome].
        destruct (negb (Py.strip s =? "")%string); [|now apply color_by_name_outcome].
        rewrite P. cbn [bind some_nonempty]. now apply color_by_name_outcome.
      * rewrite parse_rgb_text in P. discriminate P.
  - intros name n N. unfold get_color_hex. cbn [truthy].
    destruct (Z.eqb_spec n 0); [contradiction|reflexivity].
  - intros n rgb N T P. destruct rgb as [|s| |]; try discriminate.
    + unfold get_color_hex, color_by_name. cbn [truthy bind].
      destruct (Z.eqb_spec n 0); [contradiction|reflexivity].
    + unfold get_color_hex. cbn [truthy strip_method bind].
      assert (C : color_by_name (VInt n) = Raise AttributeError).
      { unfold color_by_name. cbn [truthy].
        destruct (Z.eqb_spec n 0); [contradiction|reflexivity]. }
      destruct (negb (s =? "")%string); cbn [bind]; [|exact C].
      destruct (negb (Py.strip s =? "")%string); [|exact C].
      rewrite P. exact C.
Qed.

Lemma get_color_hex_cells_witness :
  (exists o, get_color_hex (VStr "NoColor") (VStr "1;2;3") = Ok o /\ o <> Some EmptyString)
  /\ get_color_hex (VStr "Red") (VInt 255) = Raise AttributeError
  /\ get_color_hex (VInt 3) (VStr "x") = Raise AttributeError.
Proof.
  destruct get_color_hex_cells as [A [B C]].
  split; [apply A; reflexivity|]. split.
  - apply B. discriminate.
  - apply C; [discriminate|reflexivity|reflexivity].
Defined.

Lemma byte_table :
  forallb (fun k =>
             let h := hex2 (Z.of_nat k) in
             forallb upper_hex (list_ascii_of_string h)
             && match h with
                | String hi (String lo EmptyString) =>
                    16 * hex_value hi + hex_value lo =? Z.of_nat k
                | _ => false
                end) (seq 0 256) = true.
Proof. vm_compute. reflexivity. Qed.

Lemma hex2_byte (n : Z) :
  0 <= n <= 255 ->
  upper_hex (hex_char (n / 16)) = true /\ upper_hex (hex_char (n mod 16)) = true
  /\ 16 * hex_value (hex_char (n / 16)) + hex_value (hex_char (n mod 16)) = n.
Proof.
  intros H. pose proof byte_table as T. rewrite forallb_forall in T.
  specialize (T (Z.to_nat n)). rewrite Z2Nat.id in T by lia.
  assert (I : In (Z.to_nat n) (seq 0 256)) by (apply in_seq; lia).
  specialize (T I). cbv zeta in T. unfold hex2 in T.
  cbn [list_ascii_of_string forallb] in T.
  apply andb_prop in T. destruct T as [U V]. apply Z.eqb_eq in V.
  apply andb_prop in U. destruct U as [U1 U]. apply andb_prop in U. destruct U as [U2 _].
  auto.
Qed.

Lemma palette_six_hex : forallb (fun e => six_hex (snd e)) color_map = true.
Proof. vm_compute. reflexivity. Qed.

(** X3: a colour found in the palette is six upper-case hexadecimal digits,
    and so is the colour of an RGB text of three integers between 0 and 255;
    read back two digits at a time, that colour gives the three integers
    again. *)
Theorem resolved_colors_well_formed :
  (forall name h, color_name_to_hex name = Some h -> six_hex h = true)
  /\ (forall s p1 p2 p3 r g b,
         rgb_tokens s = [p1; p2; p3] ->
         Py.int (Py.strip p1) = Ok r -> Py.int (Py.strip p2) = Ok g ->
         Py.int (Py.strip p3) = Ok b ->
         0 <= r <= 255 -> 0 <= g <= 255 -> 0 <= b <= 255 ->
         exists h,
           parse_rgb (VStr s) = Ok (Some h) /\ six_hex h = true
           /\ channel h 0 = Some r /\ channel h 1 = Some g /\ channel h 2 = Some b).
Proof.
  split.
  - intros name h H. destruct name as [|n| |]; try discriminate H.
    cbn [color_name_to_hex] in H. apply dict_get_In in H.
    pose proof palette_six_hex as T. rewrite forallb_forall in T.
    exact (T _ H).
  - intros s p1 p2 p3 r g b Ht H1 H2 H3 Hr Hg Hb.
    exists (hex2 r ++ hex2 g ++ hex2 b)%string. split.
    + rewrite parse_rgb_text, Ht. unfold rgb_of_parts. rewrite H1, H2, H3.
      cbn [bind try_except]. now rewrite !format_02X_byte.
    + destruct (hex2_byte r Hr) as [R1 [R2 R3]].
      destruct (hex2_byte g Hg) as [G1 [G2 G3]].
      destruct (hex2_byte b Hb) as [B1 [B2 B3]].
      unfold hex2, six_hex, channel.
      cbn [String.append String.length Nat.eqb list_ascii_of_string forallb andb
           Nat.mul Nat.add String.get].
      rewrite R1, R2, G1, G2, B1, B2, R3, G3, B3. repeat split.
Qed.

Lemma resolved_colors_well_formed_witness :
  six_hex "FFC000" = true
  /\ exists h, parse_rgb (VStr "18, 52, 86") = Ok (Some h) /\ six_hex h = true
               /\ channel h 0 = Some 18 /\ channel h 1 = Some 52 /\ channel h 2 = Some 86.
Proof.
  destruct resolved_colors_well_formed as [A B]. split.
  - apply (A (VStr "Gold")). reflexivity.
  - apply (B "18, 52, 86" "18" " 52" " 86" 18 52 86); try reflexivity; lia.
Defined.

Lemma replace_quote_cons (c : ascii) (s : string) :
  Py.replace "'" "" (String c s)
  = if Ascii.eqb c "'" then Py.replace "'" "" s else String c (Py.replace "'" "" s).
Proof.
  unfold Py.replace. cbn [Py.replace_from prefix].
  destruct (ascii_dec "'" c) as [<-|N].
  - now destruct s.
  - destruct (Ascii.eqb_spec c "'") as [->|_]; [now elim N|reflexivity].
Qed.

Lemma replace_quote_idem (s : string) :
  Py.replace "'" "" (Py.replace "'" "" s) = Py.replace "'" "" s.
Proof.
  induction s as [|c s IH]; [reflexivity|].
  rewrite replace_quote_cons. destruct (Ascii.eqb c "'") eqn:E; [exact IH|].
  rewrite replace_quote_cons, E. now rewrite IH.
Qed.

(** X4: [parse_rgb] gives the same result on a text and on the text with
    every single quote taken out: quotes around or inside the triple do not
    count. *)
Theorem parse_rgb_ignores_quotes (s : string) :
  parse_rgb (VStr (Py.replace "'" "" s)) = parse_rgb (VStr s).
Proof.
  rewrite !parse_rgb_text. unfold rgb_tokens. now rewrite replace_quote_idem.
Qed.

(** ** Column letters: distinct names, distinct numbers *)

Definition letters (s : string) : bool := forallb is_letter (list_ascii_of_string s).

Lemma column_fold_nonneg (l : list ascii) (acc : Z) :
  0 <= acc -> forallb is_letter l = true -> 0 <= fold_left column_step l acc.
Proof.
  revert acc. induction l as [|c l IH]; intros acc A H; [exact A|].
  cbn [forallb] in H. apply andb_prop in H. destruct H as [Hc Hl].
  cbn [fold_left]. apply IH; [|exact Hl].
  unfold is_letter in Hc. apply andb_prop in Hc. destruct Hc as [H1 _].
  apply Z.leb_le in H1. unfold column_step. change (Py.ord "A") with 65. lia.
Qed.

Lemma ord_inj (c d : ascii) : Py.ord c = Py.ord d -> c = d.
Proof.
  unfold Py.ord. intros H. apply N2Z.inj in H.
  rewrite <- (ascii_N_embedding c), <- (ascii_N_embedding d). now rewrite H.
Qed.

Lemma column_fold_inj (l1 l2 : list ascii) :
  forallb is_letter l1 = true -> forallb is_letter l2 = true ->
  fold_left column_step l1 0 = fold_left column_step l2 0 -> l1 = l2.
Proof.
  revert l2. induction l1 as [|c1 l1 IH] using rev_ind; intros l2 H1 H2 E.
  - destruct l2 as [|c2 l2] using rev_ind; [reflexivity|]. exfalso.
    rewrite forallb_app in H2. apply andb_prop in H2. destruct H2 as [Hl Hc].
    cbn [forallb] in Hc. rewrite andb_true_r in Hc.
    rewrite fold_left_app in E. cbn [fold_left] in E.
    pose proof (column_fold_nonneg l2 0 (Z.le_refl 0) Hl).
    unfold is_letter in Hc. apply andb_prop in Hc. destruct Hc as [A _].
    apply Z.leb_le in A. unfold column_step in E at 1. change (Py.ord "A") with 65 in E.
    lia.
  - rewrite forallb_app in H1. apply andb_prop in H1. destruct H1 as [Hl1 Hc1].
    cbn [forallb] in Hc1. rewrite andb_true_r in Hc1.
    pose proof (column_fold_nonneg l1 0 (Z.le_refl 0) Hl1) as N1.
    unfold is_letter in Hc1. apply andb_prop in Hc1. destruct Hc1 as [A1 B1].
    apply Z.leb_le in A1, B1.
    rewrite fold_left_app in E. cbn [fold_left] in E.
    destruct l2 as [|c2 l2 _] using rev_ind.
    + exfalso. cbn [fold_left] in E. unfold column_step in E at 1.
      change (Py.ord "A") with 65 in E. lia.
    + rewrite forallb_app in H2. apply andb_prop in H2. destruct H2 as [Hl2 Hc2].
      cbn [forallb] in Hc2. rewrite andb_true_r in Hc2.
      pose proof (column_fold_nonneg l2 0 (Z.le_refl 0) Hl2) as N2.
      unfold is_letter in Hc2. apply andb_prop in Hc2. destruct Hc2 as [A2 B2].
      apply Z.leb_le in A2, B2.
      rewrite fold_left_app in E. cbn [fold_left] in E.
      unfold column_step in E at 1 3. change (Py.ord "A") with 65 in E.
      assert (fold_left column_step l1 0 = fold_left column_step l2 0) by lia.
      assert (Py.ord c1 = Py.ord c2) by lia.
      f_equal; [now apply IH | f_equal; now apply ord_inj].
Qed.

(** X5: two column names made of the letters A to Z that have the same
    index are the same name. *)
Theorem column_letter_to_index_injective (s t : string) :
  letters s = true -> letters t = true ->
  column_letter_to_index s = column_letter_to_index t -> s = t.
Proof.
  intros Hs Ht E.
  rewrite <- (string_of_list_ascii_of_string s), <- (string_of_list_ascii_of_string t).
  f_equal. now apply column_fold_inj.
Qed.

Lemma column_letter_to_index_injective_witness :
  letters "AZ" = true
  /\ column_letter_to_index "AZ" = column_letter_to_index ("A" ++ "Z")
  /\ "AZ" = ("A" ++ "Z")%string.
Proof.
  split; [reflexivity|]. split; [reflexivity|].
  apply column_letter_to_index_injective; reflexivity.
Defined.

(** ** The placeholder *)

(** A text without the character [@]. *)
Definition no_at (s : string) : bool :=
  forallb (fun c => negb (Ascii.eqb c "@")) (list_ascii_of_string s).

Lemma replace_no_at (row_number a b : string) :
  no_at a = true ->
  Py.replace "@ROW@" row_number (a ++ b) = (a ++ Py.replace "@ROW@" row_number b)%string.
Proof.
  unfold no_at, Py.replace. induction a as [|c a IH]; intros H; [reflexivity|].
  cbn [list_ascii_of_string forallb] in H. apply andb_prop in H. destruct H as [Hc Ha].
  cbn [String.append Py.replace_from prefix].
  destruct (ascii_dec "@" c) as [<-|_]; [discriminate Hc|].
  now rewrite IH.
Qed.

Lemma append_empty_r (s : string) : (s ++ "")%string = s.
Proof. induction s as [|c s IH]; [reflexivity|]. cbn. now rewrite IH. Qed.

Lemma replace_placeholder (row_number b : string) :
  Py.replace "@ROW@" row_number ("@ROW@" ++ b)
  = (row_number ++ Py.replace "@ROW@" row_number b)%string.
Proof.
  unfold Py.replace. destruct b; reflexivity.
Qed.

(** X6: every placeholder is replaced, from the left: in a formula that
    starts with a part free of [@] followed by the placeholder, the part
    stays, the row number takes the place of the placeholder, and the rest is
    treated the same way; a formula without [@] is attached as it is
    written. *)
Theorem placeholder_substitution :
  (forall row_number a b,
      no_at a = true ->
      Py.replace "@ROW@" row_number (a ++ "@ROW@" ++ b)
      = (a ++ row_number ++ Py.replace "@ROW@" row_number b)%string)
  /\ (forall row_number s, no_at s = true -> Py.replace "@ROW@" row_number s = s)
  /\ (forall (lib : Openpyxl) row_number start_row end_row r s range_string cf,
         formula r = VStr s -> no_at s = true ->
         emitted row_number start_row end_row r = Some (range_string, cf) ->
         cf_formula cf = s).
Proof.
  assert (P : forall row_number s, no_at s = true -> Py.replace "@ROW@" row_number s = s).
  { intros rn s H. pose proof (replace_no_at rn s "" H) as E.
    rewrite append_empty_r in E. rewrite E. apply append_empty_r. }
  split; [|split; [exact P|]].
  - intros rn a b H. now rewrite (replace_no_at rn a _ H), replace_placeholder.
  - intros lib rn sr er r s rg cf F H E.
    destruct (emitted_formula _ _ _ _ _ _ E) as [s' [F' ->]].
    assert (s' = s) by congruence. subst s'. now apply P.
Qed.

Lemma placeholder_substitution_witness :
  Py.replace "@ROW@" "13" ("=AND(A" ++ "@ROW@" ++ ">0,B@ROW@<5)") = "=AND(A13>0,B13<5)"
  /\ Py.replace "@ROW@" "13" "=TODAY()" = "=TODAY()".
Proof.
  destruct placeholder_substitution as [A [B _]]. split.
  - rewrite (A "13" "=AND(A" ">0,B@ROW@<5)" eq_refl). reflexivity.
  - apply B. reflexivity.
Defined.

(** ** What a directive is made of *)

(** X7: a directive attached for a record has a non-empty formula, the
    stop flag of the record, the range built from the two column cells and
    the two row numbers as they are (nothing is put in order), a range the
    library accepted, colours that are the resolved colours of the record and
    were accepted by the library, and at least one of the two colours. *)
Theorem emitted_directive_shape (lib : Openpyxl) (row_number : string)
        (start_row end_row : Z) (r : rule) (range_string : string) (cf : cf_rule) :
  emitted row_number start_row end_row r = Some (range_string, cf) ->
  cf_formula cf <> EmptyString
  /\ cf_stopIfTrue cf = stop_if_true r
  /\ range_string
     = (Py.str (start_col r) ++ Py.str_of_int start_row ++ ":"
        ++ Py.str (end_col r) ++ Py.str_of_int end_row)%string
  /\ range_ok range_string = true
  /\ (forall h, cf_fill cf = Some h ->
                get_color_hex (bg_color r) (bg_rgb r) = Ok (Some h) /\ color_ok h = true)
  /\ (forall h, cf_font cf = Some h ->
                get_color_hex (font_color r) (font_rgb r) = Ok (Some h)
                /\ color_ok h = true)
  /\ (cf_fill cf <> None \/ cf_font cf <> None).
Proof.
  unfold emitted, directive.
  destruct (if truthy (formula r) then _ else _) as [ft|e]; cbn [bind try_except];
    [|discriminate].
  destruct (String.eqb_spec ft "") as [|Nf]; [discriminate|].
  destruct (get_color_hex (bg_color r) (bg_rgb r)) as [bg|e]; cbn [bind try_except];
    [|discriminate].
  destruct (get_color_hex (font_color r) (font_rgb r)) as [fg|e]; cbn [bind try_except];
    [|discriminate].
  destruct (negb (some_nonempty bg) && negb (some_nonempty fg)) eqn:Both; [discriminate|].
  assert (S : forall x y, style_color x = Ok y ->
                (forall h, y = Some h -> x = Some h /\ color_ok h = true)
                /\ (some_nonempty x = true -> y <> None)).
  { intros x y. unfold style_color, Color.
    destruct (some_nonempty x) eqn:Sx.
    - destruct x as [h|]; [|discriminate Sx].
      destruct (color_ok h) eqn:C; cbn [bind]; [|discriminate].
      intros [= <-]. split; [intros h' [= <-]; now split|discriminate].
    - intros [= <-]. split; [discriminate|discriminate]. }
  destruct (style_color bg) as [fill|e] eqn:Sb; cbn [bind try_except]; [|discriminate].
  destruct (style_color fg) as [font|e] eqn:Sf; cbn [bind try_except]; [|discriminate].
  destruct (range_ok _) eqn:R; cbn [try_except]; [|discriminate].
  intros [= <- <-]. cbn [cf_formula cf_stopIfTrue cf_fill cf_font].
  destruct (S _ _ Sb) as [Fb Nb], (S _ _ Sf) as [Ff Nfg].
  split; [exact Nf|]. split; [reflexivity|]. split; [reflexivity|].
  split; [exact R|]. split.
  - intros h E. destruct (Fb h E) as [-> C]. now split.
  - split.
    + intros h E. destruct (Ff h E) as [-> C]. now split.
    + destruct (some_nonempty bg); [left; now apply Nb|].
      destruct (some_nonempty fg); [right; now apply Nfg|discriminate Both].
Qed.

Definition demo_reversed_rule : rule :=
  {| start_col := VStr "C"; end_col := VStr "A"; formula := VStr "=A@ROW@>0";
     stop_if_true := true; bg_color := VStr "Red"; bg_rgb := VNone;
     font_color := VNone; font_rgb := VNone; number_format := VNone;
     worksheet := VNone |}.

Lemma emitted_directive_shape_witness :
  exists range_string cf,
    @emitted plain_library "13" 15 13 demo_reversed_rule = Some (range_string, cf)
    /\ range_string = "C15:A13" /\ cf_stopIfTrue cf = true
    /\ (cf_fill cf <> None \/ cf_font cf <> None).
Proof.
  destruct (@emitted plain_library "13" 15 13 demo_reversed_rule) as [[rg cf]|] eqn:E.
  - exists rg, cf. split; [reflexivity|].
    destruct (emitted_directive_shape plain_library _ _ _ _ _ _ E)
      as [_ [S [R [_ [_ [_ C]]]]]].
    split; [rewrite R; reflexivity|]. split; [exact S|exact C].
  - vm_compute in E. discriminate E.
Defined.

Lemma get_color_hex_nontext (name v : value) :
  truthy v = true -> textual v = false -> get_color_hex name v = Raise AttributeError.
Proof.
  intros T N. unfold get_color_hex. rewrite T.
  destruct v; try discriminate N; reflexivity.
Qed.

(** X8: a record whose formula cell or one of whose RGB cells holds a
    number other than 0 (or TRUE) is counted as skipped: the exception for
    the missing text method is caught, nothing is attached and the loop goes
    on. *)
Theorem non_text_cell_skips (lib : Openpyxl) (row_number : string)
        (start_row end_row : Z) (ws : nat) (st : loop_state) (r : rule) :
  (truthy (formula r) = true /\ textual (formula r) = false)
  \/ (truthy (bg_rgb r) = true /\ textual (bg_rgb r) = false)
  \/ (truthy (font_rgb r) = true /\ textual (font_rgb r) = false) ->
  apply_rule row_number start_row end_row ws st r = skip st.
Proof.
  intros H. rewrite apply_rule_emitted. unfold emitted, directive.
  destruct H as [[T N]|[[T N]|[T N]]].
  - rewrite T. destruct (formula r); try discriminate N; reflexivity.
  - destruct (if truthy (formula r) then _ else _) as [ft|e]; cbn [bind try_except];
      [|reflexivity].
    destruct (ft =? "")%string; [reflexivity|].
    now rewrite (get_color_hex_nontext _ _ T N).
  - destruct (if truthy (formula r) then _ else _) as [ft|e]; cbn [bind try_except];
      [|reflexivity].
    destruct (ft =? "")%string; [reflexivity|].
    rewrite (get_color_hex_nontext (font_color r) _ T N).
    now destruct (get_color_hex (bg_color r) (bg_rgb r)).
Qed.

Lemma non_text_cell_skips_witness :
  @apply_rule plain_library "13" 13 15 1
    {| wb_new := demo_target; rules_applied := 2; rules_skipped := 0 |}
    {| start_col := VStr "A"; end_col := VStr "A"; formula := VInt 42;
       stop_if_true := false; bg_color := VStr "Red"; bg_rgb := VNone;
       font_color := VNone; font_rgb := VNone; number_format := VNone;
       worksheet := VNone |}
  = {| wb_new := demo_target; rules_applied := 2; rules_skipped := 1 |}.
Proof.
  apply (non_text_cell_skips plain_library "13" 13 15 1
           {| wb_new := demo_target; rules_applied := 2; rules_skipped := 0 |}).
  left. split; reflexivity.
Defined.

(** ** Grouping by worksheet *)

Lemma int_of_bool_inj (x y : bool) : int_of_bool x = int_of_bool y -> x = y.
Proof. destruct x, y; cbn; intros H; try reflexivity; discriminate H. Qed.

Lemma py_eq_refl (a : value) : py_eq a a = true.
Proof.
  destruct a as [|s|n|b]; cbn.
  - reflexivity.
  - apply String.eqb_refl.
  - apply Z.eqb_refl.
  - now destruct b.
Qed.

Lemma py_eq_sym (a b : value) : py_eq a b = py_eq b a.
Proof.
  destruct a as [|s|n|x], b as [|t|m|y]; cbn; try reflexivity.
  - apply String.eqb_sym.
  - apply Z.eqb_sym.
  - apply Z.eqb_sym.
  - apply Z.eqb_sym.
  - now destruct x, y.
Qed.

Lemma py_eq_trans (a b c : value) :
  py_eq a b = true -> py_eq b c = true -> py_eq a c = true.
Proof.
  destruct a as [|s|n|x], b as [|t|m|y], c as [|u|k|z]; cbn; try discriminate;
    rewrite ?String.eqb_eq, ?Z.eqb_eq, ?Bool.eqb_true_iff; intros H1 H2; subst;
    try reflexivity; try assumption; try (now apply int_of_bool_inj).
Qed.

(** The records of [rules] that go on the sheet [k], in their order. *)
Definition group_of (rules : list rule) (k : value) : list rule :=
  filter (fun r => py_eq k (sheet_name_of r)) rules.

Definition groups_ok (processed : list rule) (groups : list (value * list rule)) : Prop :=
  distinct_keys groups
  /\ (forall k rs, In (k, rs) groups -> rs = group_of processed k /\ rs <> [])
  /\ (forall r, In r processed ->
                exists k rs, In (k, rs) groups /\ py_eq k (sheet_name_of r) = true).

Lemma group_add_members (name : value) (r : rule) (groups : list (value * list rule)) :
  distinct_keys groups ->
  forall k rs,
    In (k, rs) (group_add name r groups) ->
    (In (k, rs) groups /\ py_eq k name = false)
    \/ (exists rs0, In (k, rs0) groups /\ py_eq k name = true /\ rs = (rs0 ++ [r])%list)
    \/ (k = name /\ rs = [r] /\ Forall (fun g => py_eq (fst g) name = false) groups).
Proof.
  unfold distinct_keys. intros D.
  induction D as [|[k0 rs0] groups H0 D IH]; intros k rs I; cbn [group_add] in I.
  - destruct I as [[= <- <-]|[]]. right. right. repeat split. constructor.
  - destruct (py_eq k0 name) eqn:E.
    + destruct I as [[= <- <-]|I].
      * right. left. exists rs0. split; [now left|]. now split.
      * left. split; [now right|].
        rewrite Forall_forall in H0. specialize (H0 _ I). cbn [fst] in H0.
        destruct (py_eq k name) eqn:E'; [|reflexivity].
        rewrite py_eq_sym in E'. rewrite (py_eq_trans _ _ _ E E') in H0. discriminate H0.
    + destruct I as [[= <- <-]|I].
      * left. split; [now left|exact E].
      * destruct (IH _ _ I) as [[I' N]|[[x [I' [Y ->]]]|[-> [-> F]]]].
        -- left. split; [now right|exact N].
        -- right. left. exists x. split; [now right|]. now split.
        -- right. right. repeat split. constructor; [exact E|exact F].
Qed.

Lemma group_of_snoc (processed : list rule) (r : rule) (k : value) :
  group_of (processed ++ [r]) k
  = (group_of processed k ++ (if py_eq k (sheet_name_of r) then [r] else []))%list.
Proof.
  unfold group_of. rewrite filter_app. cbn [filter].
  now destruct (py_eq k (sheet_name_of r)).
Qed.

Lemma group_add_covers (name : value) (r : rule) (groups : list (value * list rule)) :
  (forall k rs, In (k, rs) groups ->
                exists rs', In (k, rs') (group_add name r groups))
  /\ exists k rs, In (k, rs) (group_add name r groups) /\ py_eq k name = true.
Proof.
  induction groups as [|[k0 rs0] groups [IH1 IH2]]; cbn [group_add].
  - split; [intros k rs []|]. exists name, [r]. split; [now left|apply py_eq_refl].
  - destruct (py_eq k0 name) eqn:E.
    + split.
      * intros k rs [[= <- <-]|I]; [eexists; now left|eexists; right; exact I].
      * exists k0, (rs0 ++ [r])%list. split; [now left|exact E].
    + split.
      * intros k rs [[= <- <-]|I]; [eexists; now left|].
        destruct (IH1 _ _ I) as [rs' I']. eexists. right. exact I'.
      * destruct IH2 as [k [rs [I P]]]. exists k, rs. split; [now right|exact P].
Qed.

Lemma filter_none {A : Type} (f : A -> bool) (l : list A) :
  (forall x, In x l -> f x = false) -> filter f l = [].
Proof.
  induction l as [|a l IH]; intros H; [reflexivity|].
  cbn [filter]. rewrite (H a (or_introl eq_refl)). apply IH.
  intros x I. apply H. now right.
Qed.

Lemma groups_ok_step (processed : list rule) (groups : list (value * list rule))
      (r : rule) :
  groups_ok processed groups ->
  groups_ok (processed ++ [r]) (group_add (sheet_name_of r) r groups).
Proof.
  intros [D [G C]]. split; [now apply group_add_distinct|]. split.
  - intros k rs I. rewrite group_of_snoc.
    destruct (group_add_members _ _ _ D _ _ I)
      as [[I' N]|[[rs0 [I' [Y ->]]]|[-> [-> F]]]].
    + rewrite N, app_nil_r. now apply G.
    + rewrite Y. destruct (G _ _ I') as [-> _]. split; [reflexivity|].
      intros E. apply app_eq_nil in E. destruct E as [_ E]. discriminate E.
    + rewrite py_eq_refl. split; [|discriminate].
      assert (N : group_of processed (sheet_name_of r) = []).
      { unfold group_of. apply filter_none.
        intros r' I'. destruct (C _ I') as [k [rs [Ik P]]].
        rewrite Forall_forall in F. specialize (F _ Ik). cbn [fst] in F.
        destruct (py_eq (sheet_name_of r) (sheet_name_of r')) eqn:E; [|reflexivity].
        rewrite py_eq_sym in E. rewrite (py_eq_trans _ _ _ P E) in F. discriminate F. }
      now rewrite N.
  - intros r' I. apply in_app_or in I. destruct I as [I|[<-|[]]].
    + destruct (C _ I) as [k [rs [Ik P]]].
      destruct (proj1 (group_add_covers (sheet_name_of r) r groups) _ _ Ik) as [rs' I'].
      now exists k, rs'.
    + exact (proj2 (group_add_covers (sheet_name_of r) r groups)).
Qed.

Lemma group_rules_ok (rules : list rule) : groups_ok rules (group_rules rules).
Proof.
  unfold group_rules.
  assert (G : forall processed groups,
             groups_ok processed groups ->
             groups_ok (processed ++ rules)
               (fold_left (fun groups r => group_add (sheet_name_of r) r groups)
                          rules groups)).
  { induction rules as [|r rules IH]; intros processed groups H; cbn [fold_left].
    - now rewrite app_nil_r.
    - replace (processed ++ r :: rules)%list with ((processed ++ [r]) ++ rules)%list
        by now rewrite <- app_assoc.
      apply IH. now apply groups_ok_step. }
  apply (G [] []). split; [constructor|]. split; [intros k rs []|intros r []].
Qed.

(** X9: the groups of [rules_by_sheet] split the records by worksheet
    name: a group holds exactly the records whose name equals its key, in
    the order of the table, and is never empty; every record is in a group;
    no two groups have the same key; a record without a worksheet name goes
    with the records of "Sheet1". *)
Theorem group_rules_partition (rules : list rule) :
  (forall k rs,
      In (k, rs) (group_rules rules) ->
      rs = filter (fun r => py_eq k (sheet_name_of r)) rules /\ rs <> [])
  /\ (forall r, In r rules -> exists k rs, In (k, rs) (group_rules rules) /\ In r rs)
  /\ ForallOrdPairs (fun a b => py_eq (fst a) (fst b) = false) (group_rules rules)
  /\ (forall r, truthy (worksheet r) = false -> sheet_name_of r = VStr "Sheet1").
Proof.
  destruct (group_rules_ok rules) as [D [G C]].
  split; [exact G|]. split; [|split; [exact D|]].
  - intros r I. destruct (C _ I) as [k [rs [Ik P]]]. exists k, rs. split; [exact Ik|].
    destruct (G _ _ Ik) as [-> _]. apply filter_In. now split.
  - intros r H. unfold sheet_name_of. now rewrite H.
Qed.

Lemma group_rules_partition_witness :
  exists k rs,
    In (k, rs) (group_rules [record_of [VStr "A"; VStr "A"; VStr "=1"; VNone];
                             record_of [VStr "B"; VStr "B"; VStr "=2"; VNone; VNone;
                                        VNone; VNone; VNone; VNone; VNone]])
    /\ In (record_of [VStr "B"; VStr "B"; VStr "=2"; VNone; VNone; VNone; VNone; VNone;
                      VNone; VNone]) rs
    /\ k = VStr "Sheet1".
Proof.
  destruct (proj1 (proj2 (group_rules_partition
              [record_of [VStr "A"; VStr "A"; VStr "=1"; VNone];
               record_of [VStr "B"; VStr "B"; VStr "=2"; VNone; VNone;
                          VNone; VNone; VNone; VNone; VNone]]))
              (record_of [VStr "B"; VStr "B"; VStr "=2"; VNone; VNone; VNone; VNone;
                          VNone; VNone; VNone]))
    as [k [rs [I J]]].
  - right. left. reflexivity.
  - exists k, rs. split; [exact I|]. split; [exact J|].
    cbn in I. destruct I as [[= <- _]|[]]. reflexivity.
Defined.

(** ** The workbook a run produces *)

Definition key_text (k : value) : string :=
  match k with
  | VStr s => s
  | _ => EmptyString
  end.

(** The sheets of the groups get the names of the groups: whenever the
    library is asked for a new sheet for a group, next to the sheets named
    after the groups before it, and files one, it files it under the name of
    the group. (A library may rename a sheet whose name is already taken up
    to the case of the letters; this says that the names of the table do not
    make it do so.) *)
Definition titles_kept (lib : Openpyxl) (groups : list (value * list rule)) : Prop :=
  forall done k rs rest t,
    groups = (done ++ (k, rs) :: rest)%list ->
    new_title (map (fun g => key_text (fst g)) done) k = Ok t ->
    k = VStr t.

Section Created.

Context {lib : Openpyxl}.
Variable row_number : string.
Variables start_row end_row : Z.

(** The sheet a group gets in a new workbook. *)
Definition sheet_of (g : value * list rule) : sheet :=
  {| title := key_text (fst g);
     conditional_formatting := directives row_number start_row end_row (snd g) |}.

Definition directive_total (groups : list (value * list rule)) : nat :=
  list_sum (map (fun g => List.length (directives row_number start_row end_row (snd g)))
                groups).

Lemma alter_sheet_last (f : sheet -> sheet) (wb : workbook) (s : sheet) :
  alter_sheet f (List.length wb) (wb ++ [s])%list = (wb ++ [f s])%list.
Proof.
  induction wb as [|x wb IH]; [reflexivity|]. cbn. now rewrite IH.
Qed.

Lemma directive_total_cons (g : value * list rule) (groups : list (value * list rule)) :
  directive_total (g :: groups)
  = (List.length (directives row_number start_row end_row (snd g))
     + directive_total groups)%nat.
Proof. reflexivity. Qed.

Lemma apply_sheets_applied (groups : list (value * list rule)) (st st' : loop_state) :
  apply_sheets row_number start_row end_row st groups = Ok st' ->
  rules_applied st' = (rules_applied st + directive_total groups)%nat.
Proof.
  revert st. induction groups as [|[name rules] groups IH]; intros st H.
  - injection H as <-. unfold directive_total. cbn. lia.
  - cbn [apply_sheets] in H.
    destruct (apply_sheet row_number start_row end_row st (name, rules)) as [st1|e] eqn:E;
      cbn [bind] in H; [|discriminate].
    rewrite (IH _ H). destruct (apply_sheet_inv _ _ _ _ _ _ _ E) as [ws [wb [_ ->]]].
    rewrite directive_total_cons. cbn [snd rules_applied]. lia.
Qed.

Lemma sheet_index_fresh (k : value) (done : list (value * list rule)) :
  Forall (fun d => py_eq (fst d) k = false /\ fst d = VStr (key_text (fst d))) done ->
  sheet_index k (map sheet_of done) = None.
Proof.
  intros F. induction F as [|[k0 rs0] done [N T] F IH]; [reflexivity|].
  cbn [map sheet_index sheet_of title fst] in *. rewrite <- T, N, IH. reflexivity.
Qed.

Lemma sheetnames_sheet_of (done : list (value * list rule)) :
  sheetnames (map sheet_of done) = map (fun g => key_text (fst g)) done.
Proof.
  unfold sheetnames. rewrite map_map. reflexivity.
Qed.

Lemma apply_sheets_created (all groups done : list (value * list rule))
      (st st' : loop_state) :
  titles_kept lib all ->
  distinct_keys all ->
  all = (done ++ groups)%list ->
  wb_new st = map sheet_of done ->
  Forall (fun d => fst d = VStr (key_text (fst d))) done ->
  apply_sheets row_number start_row end_row st groups = Ok st' ->
  wb_new st' = map sheet_of all.
Proof.
  intros Kept D. revert done st.
  induction groups as [|[k rs] groups IH]; intros done st A W T H.
  - injection H as <-. rewrite app_nil_r in A. now subst all.
  - cbn [apply_sheets] in H.
    destruct (apply_sheet row_number start_row end_row st (k, rs)) as [st1|e] eqn:E;
      cbn [bind] in H; [|discriminate].
    assert (Fresh : sheet_index k (wb_new st) = None).
    { rewrite W. apply sheet_index_fresh. unfold distinct_keys in D. rewrite A in D.
      clear - D T. induction done as [|d done IHd]; [constructor|].
      inversion T as [|? ? Td T']; subst.
      cbn [app] in D. inversion D as [|? ? Dh Dt]; subst.
      constructor; [|now apply IHd].
      split; [|exact Td]. rewrite Forall_forall in Dh.
      apply (Dh (k, rs)). apply in_or_app. right. now left. }
    destruct (apply_sheet_inv _ _ _ _ _ _ _ E) as [ws [wb [G ->]]].
    unfold get_or_create in G. rewrite Fresh in G. unfold create_sheet in G.
    destruct (new_title (sheetnames (wb_new st)) k) as [t|e] eqn:N; cbn [bind] in G;
      [|discriminate].
    injection G as <- <-. rewrite W, sheetnames_sheet_of in N.
    pose proof (Kept done k rs groups t A N) as ->.
    refine (IH (done ++ [(VStr t, rs)])%list _ _ _ _ H).
    + now rewrite <- app_assoc.
    + cbn [wb_new]. rewrite alter_sheet_last, W, map_app. reflexivity.
    + apply Forall_app. split; [exact T|]. constructor; [reflexivity|constructor].
Qed.

End Created.

(** X10: when the sheets of the groups get the names of the groups, a run
    in a mode other than "Update Existing File" returns, whatever the target
    file, a workbook with one sheet for each group of the rule table, in the
    order of the groups, titled by the group's name and carrying exactly the
    directives of the group; the number of rules applied is the number of
    directives in the workbook. *)
Theorem create_mode_output (lib : Openpyxl) (rules_file : rules_workbook)
        (target_file : option workbook) (row_number_input : option string)
        (first_row last_row : option Z) (mode : string) (out : result) :
  mode <> "Update Existing File" ->
  apply_cf_rules rules_file target_file row_number_input first_row last_row mode
  = Returned out ->
  titles_kept lib (res_rules_by_sheet out) ->
  output out
  = map (sheet_of (res_row_number out) (res_start_row out) (res_end_row out))
        (res_rules_by_sheet out)
  /\ res_rules_applied out
     = list_sum (map (fun s => List.length (conditional_formatting s)) (output out)).
Proof.
  intros M H. destruct (apply_cf_rules_inv _ _ _ _ _ _ _ H) as [rn [_ R]].
  destruct (run_rules_inv _ _ _ _ _ _ _ R) as [sh [rules [wb0 [st [_ [_ [T [A ->]]]]]]]].
  destruct (String.eqb_spec mode "Update Existing File") as [|_]; [contradiction|].
  injection T as <-.
  cbn [output res_row_number res_start_row res_end_row res_rules_by_sheet
       res_rules_applied].
  intros Kept.
  pose proof (apply_sheets_created _ _ _ (group_rules rules) (group_rules rules) []
                {| wb_new := []; rules_applied := 0; rules_skipped := 0 |} _
                Kept (group_rules_distinct rules) eq_refl eq_refl (Forall_nil _) A) as W.
  split; [exact W|].
  rewrite (apply_sheets_applied _ _ _ _ _ _ A), W, map_map. reflexivity.
Qed.

Lemma plain_library_keeps (groups : list (value * list rule)) :
  titles_kept plain_library groups.
Proof.
  intros done k rs rest t _. destruct k; cbn; try discriminate. now intros [= ->].
Qed.

Lemma create_mode_output_witness :
  exists out,
    @apply_cf_rules plain_library demo_rules (Some demo_target) None (Some 13) (Some 15)
      "Create New File" = Returned out
    /\ sheetnames (output out) = ["Sheet1"; "Other"]
    /\ res_rules_applied out
       = list_sum (map (fun s => List.length (conditional_formatting s)) (output out)).
Proof.
  eexists. split; [vm_compute; reflexivity|]. split; [reflexivity|].
  apply (create_mode_output plain_library demo_rules (Some demo_target) None (Some 13)
           (Some 15) "Create New File").
  - discriminate.
  - vm_compute. reflexivity.
  - apply plain_library_keeps.
Defined.

(** X11: in update mode the sheets of the target stay where they are under
    their titles, new sheets come after them, and a sheet that no group of
    the rule table names is returned as it was. *)
Theorem update_keeps_other_sheets (lib : Openpyxl) (rules_file : rules_workbook)
        (wb : workbook) (row_number_input : option string)
        (first_row last_row : option Z) (out : result) :
  apply_cf_rules rules_file (Some wb) row_number_input first_row last_row
    "Update Existing File" = Returned out ->
  (exists extra, sheetnames (output out) = (sheetnames wb ++ extra)%list)
  /\ (forall j s,
         nth_error wb j = Some s ->
         (forall k rs, In (k, rs) (res_rules_by_sheet out) -> sheet_index k wb <> Some j) ->
         nth_error (output out) j = Some s).
Proof.
  intros H. destruct (apply_cf_rules_inv _ _ _ _ _ _ _ H) as [rn [_ R]].
  destruct (run_rules_inv _ _ _ _ _ _ _ R) as [sh [rules [wb0 [st [_ [_ [T [A ->]]]]]]]].
  cbn [String.eqb Ascii.eqb Bool.eqb] in T. injection T as <-.
  cbn [output res_rules_by_sheet]. split.
  - exact (apply_sheets_keeps _ _ _ _ _ _ A).
  - intros j s J N.
    assert (L : (j < List.length wb)%nat) by (apply nth_error_Some; congruence).
    pose proof (apply_sheets_other _ _ _ _
                  {| wb_new := wb; rules_applied := 0; rules_skipped := 0 |} _ j
                  L N A) as O.
    cbn [wb_new] in O. now rewrite O.
Qed.

Lemma update_keeps_other_sheets_witness :
  exists out,
    @apply_cf_rules plain_library demo_rules (Some demo_target) None (Some 13) (Some 15)
      "Update Existing File" = Returned out
    /\ nth_error (output out) 0 = nth_error demo_target 0
    /\ sheetnames (output out) = ["Data"; "Sheet1"; "Other"].
Proof.
  eexists. split; [vm_compute; reflexivity|]. split; [|reflexivity].
  refine (proj2 (update_keeps_other_sheets plain_library demo_rules demo_target None
                   (Some 13) (Some 15) _ _) 0%nat _ eq_refl _).
  - vm_compute. reflexivity.
  - intros k rs I. cbn in I.
    destruct I as [[= <- _]|[[= <- _]|[]]]; vm_compute; discriminate.
Defined.

(** ** Runs that end early *)

Lemma rule_of_row_index_error (row : list value) :
  (List.length row < 4)%nat -> rule_of_row row = Raise IndexError.
Proof.
  intros H. unfold rule_of_row.
  destruct row as [|c0 [|c1 [|c2 [|c3 rest]]]]; cbn [List.length] in H; try lia.
  - reflexivity.
  - reflexivity.
  - reflexivity.
  - cbn [item nth_error bind]. now destruct (truthy c2).
Qed.

Lemma read_rows_app (pre post : list (list value)) (acc : list rule) :
  read_rows acc (pre ++ post) = (rules <- read_rows acc pre ;; read_rows rules post).
Proof.
  revert acc. induction pre as [|row pre IH]; intros acc; [reflexivity|].
  cbn [app read_rows]. destruct (read_row acc row); cbn [bind]; [apply IH|reflexivity].
Qed.

(** X12: an empty row tuple, or a row with a start column and fewer than
    four fields, after rows that read well, ends the whole run with an
    [IndexError] that nothing catches, in every mode and whatever the target
    and the other rows are. *)
Theorem narrow_row_aborts_run (lib : Openpyxl) (rules_file : rules_workbook)
        (header : list value) (pre post : list (list value)) (row : list value)
        (target_file : option workbook) (row_number_input : option string)
        (first_row last_row : option Z) (mode row_number : string) :
  row_number_of row_number_input first_row = Some row_number ->
  get_sheet "CF Rules" rules_file = Some (header :: pre ++ row :: post) ->
  Forall readable pre ->
  row = [] \/ (has_start_column row = true /\ (List.length row < 4)%nat) ->
  apply_cf_rules rules_file target_file row_number_input first_row last_row mode
  = Crashed IndexError.
Proof.
  intros N S F B. unfold apply_cf_rules. rewrite N. unfold run_rules. rewrite S.
  cbn [tl]. rewrite read_rows_app.
  destruct (read_rows_total pre [] F) as [rules ->]. cbn [bind read_rows].
  assert (E : read_row rules row = Raise IndexError).
  { destruct B as [->|[T L]]; [reflexivity|].
    destruct row as [|v rest]; [discriminate T|]. cbn [has_start_column] in T.
    unfold read_row. cbn [item nth_error bind]. rewrite T.
    now rewrite (rule_of_row_index_error _ L). }
  now rewrite E.
Qed.

Lemma narrow_row_aborts_run_witness :
  @apply_cf_rules plain_library
    [("CF Rules", [[VStr "Start"; VStr "End"; VStr "Formula"];
                   [VNone; VNone; VNone];
                   [VStr "A"; VStr "C"; VStr "=A1>0"]])]
    None None (Some 13) (Some 15) "Create New File"
  = Crashed IndexError.
Proof.
  apply (narrow_row_aborts_run plain_library _ [VStr "Start"; VStr "End"; VStr "Formula"]
           [[VNone; VNone; VNone]] [] [VStr "A"; VStr "C"; VStr "=A1>0"] None None
           (Some 13) (Some 15) "Create New File" "13").
  - reflexivity.
  - reflexivity.
  - constructor; [|constructor]. split; [discriminate|discriminate].
  - right. split; [reflexivity|]. cbn. lia.
Defined.

(** X13: in update mode without a target file, a rule table that reads
    well and has a row with a start column ends the run with
    [MissingTargetWorkbook]; when no row has a start column the run ends
    with [EmptyRuleSetError] instead, the table being looked at first. *)
Theorem update_without_target (lib : Openpyxl) (rules_file : rules_workbook)
        (header : list value) (rows : list (list value))
        (row_number_input : option string) (first_row last_row : option Z)
        (row_number : string) :
  row_number_of row_number_input first_row = Some row_number ->
  get_sheet "CF Rules" rules_file = Some (header :: rows) ->
  Forall readable rows ->
  apply_cf_rules rules_file None row_number_input first_row last_row
    "Update Existing File"
  = if existsb has_start_column rows then Reported MissingTargetWorkbook
    else Reported EmptyRuleSetError.
Proof.
  intros N S F. unfold apply_cf_rules. rewrite N. unfold run_rules. rewrite S.
  cbn [tl]. destruct (read_rows_total rows [] F) as [rules E]. rewrite E.
  destruct (read_rows_filter _ _ _ E) as [new [-> F2]]. cbn [app].
  apply Forall2_length in F2.
  destruct (existsb has_start_column rows) eqn:X.
  - apply existsb_exists in X. destruct X as [row [I T]].
    assert (In row (filter has_start_column rows)) by (apply filter_In; now split).
    destruct new as [|r new]; [|reflexivity].
    destruct (filter has_start_column rows); [contradiction|discriminate F2].
  - assert (Z : filter has_start_column rows = []).
    { apply filter_none. intros row I.
      destruct (has_start_column row) eqn:T; [|reflexivity].
      assert (existsb has_start_column rows = true)
        by (apply existsb_exists; now exists row).
      congruence. }
    rewrite Z in F2. destruct new; [reflexivity|discriminate F2].
Qed.

Lemma update_without_target_witness :
  @apply_cf_rules plain_library demo_rules None None (Some 13) (Some 15)
    "Update Existing File" = Reported MissingTargetWorkbook
  /\ @apply_cf_rules plain_library demo_blank_rules None None (Some 13) (Some 15)
       "Update Existing File" = Reported EmptyRuleSetError.
Proof.
  split.
  - refine (update_without_target plain_library demo_rules _ _ None (Some 13) (Some 15)
              "13" eq_refl eq_refl _).
    repeat constructor; try discriminate; cbn; intros; lia.
  - refine (update_without_target plain_library demo_blank_rules _ _ None (Some 13)
              (Some 15) "13" eq_refl eq_refl _).
    repeat constructor; try discriminate.
Defined.

(** ** The row number that is used *)

Lemma rstrip_idem (s : string) : Py.rstrip (Py.rstrip s) = Py.rstrip s.
Proof.
  induction s as [|c s IH]; [reflexivity|].
  cbn [Py.rstrip]. destruct (Py.isspace c && (Py.rstrip s =? "")%string) eqn:E;
    [reflexivity|].
  cbn [Py.rstrip]. now rewrite IH, E.
Qed.

Lemma lstrip_head (s : string) :
  Py.lstrip s = EmptyString
  \/ exists c t, Py.lstrip s = String c t /\ Py.isspace c = false.
Proof.
  induction s as [|c s IH]; [now left|].
  cbn [Py.lstrip]. destruct (Py.isspace c) eqn:E; [exact IH|].
  right. now exists c, s.
Qed.

Lemma strip_idem (s : string) : Py.strip (Py.strip s) = Py.strip s.
Proof.
  unfold Py.strip. destruct (lstrip_head s) as [->|[c [t [-> N]]]]; [reflexivity|].
  cbn [Py.rstrip]. rewrite N. cbn [andb Py.lstrip]. rewrite N.
  change (Py.rstrip (String c (Py.rstrip t)) = String c (Py.rstrip t)).
  cbn [Py.rstrip]. now rewrite N, rstrip_idem.
Qed.

Lemma str_of_int_nonempty (n : Z) : Py.str_of_int n <> EmptyString.
Proof.
  unfold Py.str_of_int. destruct (Z.to_int n) as [d|d]; cbn; [|discriminate].
  destruct d; cbn; discriminate.
Qed.

(** X14: the text put in place of the placeholder is never empty; when it
    comes from the row-number box it has no white space left at either end,
    and stripping it again changes nothing. *)
Theorem row_number_never_empty (row_number_input : option string) (first_row : option Z)
        (row_number : string) :
  row_number_of row_number_input first_row = Some row_number ->
  row_number <> EmptyString
  /\ (given row_number_input = true -> Py.strip row_number = row_number).
Proof.
  unfold row_number_of. destruct (given row_number_input) eqn:G.
  - destruct row_number_input as [s|]; [|discriminate G].
    cbn [option_map]. intros [= <-]. split; [now apply given_strip|].
    intros _. apply strip_idem.
  - destruct (some_nonzero first_row); [|discriminate].
    destruct first_row as [f|]; [|discriminate]. cbn [option_map]. intros [= <-].
    split; [apply str_of_int_nonempty|discriminate].
Qed.

Lemma row_number_never_empty_witness :
  row_number_of (Some "  7 ") None = Some "7"
  /\ "7" <> EmptyString /\ Py.strip "7" = "7".
Proof.
  split; [reflexivity|].
  destruct (row_number_never_empty (Some "  7 ") None "7" eq_refl) as [N S].
  split; [exact N|]. apply S. reflexivity.
Defined.

(** ** The summary table of the page *)

(** One line of the table "Rules Applied by Worksheet" (lines 351 to 366).
    [line_stop] stands for the cell 'Stop If True': the check mark when
    true, the empty text when false. *)
Record summary_line : Type := {
  line_range : string;
  line_formula : string;
  line_bg : value;
  line_font : value;
  line_stop : bool
}.

(** [x if x else y if y else '-'] *)
Definition first_of (x y : value) : value :=
  if truthy x then x else if truthy y then y else VStr "-".

(** [f[:60] + '...' if len(f) > 60 else f] *)
Definition shorten (f : string) : string :=
  if (60 <? String.length f)%nat then (substring 0 60 f ++ "...")%string else f.

Definition summary_line_of (row_used : string) (start_row end_row : Z) (r : rule)
  : res summary_line :=
  formula_text <-
    (if truthy (formula r) then replace_method (formula r) "@ROW@" row_used
     else Ok "-") ;;
  let bg_display := first_of (bg_rgb r) (bg_color r) in
  let font_display := first_of (font_rgb r) (font_color r) in
  let range_display :=
    (Py.str (start_col r) ++ Py.str_of_int start_row ++ ":"
     ++ Py.str (end_col r) ++ Py.str_of_int end_row)%string in
  Ok {| line_range := range_display;
        line_formula := shorten formula_text;
        line_bg := bg_display;
        line_font := font_display;
        line_stop := stop_if_true r |}.

Lemma length_append (a b : string) :
  String.length (a ++ b) = (String.length a + String.length b)%nat.
Proof.
  induction a as [|c a IH]; [reflexivity|]. cbn. now rewrite IH.
Qed.

Lemma length_substring0 (n : nat) (s : string) :
  (String.length (substring 0 n s) <= n)%nat.
Proof.
  revert s. induction n as [|n IH]; intros s.
  - destruct s; cbn; lia.
  - destruct s as [|c s]; cbn; [lia|]. specialize (IH s). lia.
Qed.

Lemma shorten_length (f : string) : (String.length (shorten f) <= 63)%nat.
Proof.
  unfold shorten. destruct (Nat.ltb_spec 60 (String.length f)) as [L|L].
  - rewrite length_append. pose proof (length_substring0 60 f). cbn [String.length]. lia.
  - lia.
Qed.

Lemma emitted_range_stop {lib : Openpyxl} (row_number : string) (start_row end_row : Z)
      (r : rule) (range_string : string) (cf : cf_rule) :
  emitted row_number start_row end_row r = Some (range_string, cf) ->
  cf_stopIfTrue cf = stop_if_true r
  /\ range_string
     = (Py.str (start_col r) ++ Py.str_of_int start_row ++ ":"
        ++ Py.str (end_col r) ++ Py.str_of_int end_row)%string.
Proof.
  unfold emitted, directive.
  destruct (if truthy (formula r) then _ else _) as [ft|e]; cbn [bind try_except];
    [|discriminate].
  destruct (ft =? "")%string; [discriminate|].
  destruct (get_color_hex (bg_color r) (bg_rgb r)) as [bg|e]; cbn [bind try_except];
    [|discriminate].
  destruct (get_color_hex (font_color r) (font_rgb r)) as [fg|e]; cbn [bind try_except];
    [|discriminate].
  destruct (negb (some_nonempty bg) && negb (some_nonempty fg)); [discriminate|].
  destruct (style_color bg) as [fill|e]; cbn [bind try_except]; [|discriminate].
  destruct (style_color fg) as [font|e]; cbn [bind try_except]; [|discriminate].
  destruct (range_ok _); cbn [try_except]; [|discriminate].
  intros [= <- <-]. now split.
Qed.

(** X15: a line of the summary table shows a formula of at most 63
    characters; for a record that got a directive, the line shows the range
    and the stop flag of the directive and, when the formula of the directive
    has at most 60 characters, that formula, else its first 60 characters
    and three dots; for a record whose formula cell holds a number other
    than 0 the line cannot be built: the exception that the application loop
    caught is raised again here, where nothing catches it. *)
Theorem summary_line_matches_directive :
  (forall row_used start_row end_row r line,
      summary_line_of row_used start_row end_row r = Ok line ->
      (String.length (line_formula line) <= 63)%nat)
  /\ (forall (lib : Openpyxl) row_used start_row end_row r range_string cf,
         emitted row_used start_row end_row r = Some (range_string, cf) ->
         exists line,
           summary_line_of row_used start_row end_row r = Ok line
           /\ line_range line = range_string
           /\ line_stop line = cf_stopIfTrue cf
           /\ line_formula line = shorten (cf_formula cf)
           /\ ((String.length (cf_formula cf) <= 60)%nat ->
               line_formula line = cf_formula cf))
  /\ (forall row_used start_row end_row r,
         truthy (formula r) = true -> textual (formula r) = false ->
         summary_line_of row_used start_row end_row r = Raise AttributeError).
Proof.
  split; [|split].
  - intros rn sr er r line. unfold summary_line_of.
    destruct (if truthy (formula r) then _ else _) as [ft|e]; cbn [bind]; [|discriminate].
    intros [= <-]. cbn [line_formula]. apply shorten_length.
  - intros lib rn sr er r rg cf E.
    destruct (emitted_formula _ _ _ _ _ _ E) as [s [F Ef]].
    destruct (emitted_range_stop _ _ _ _ _ _ E) as [St Rg].
    unfold summary_line_of. rewrite F. cbn [replace_method].
    assert (T : truthy (VStr s) = true).
    { destruct (truthy (VStr s)) eqn:T; [reflexivity|]. exfalso.
      unfold emitted, directive in E. rewrite F, T in E. discriminate E. }
    rewrite T. cbn [bind]. eexists. split; [reflexivity|].
    cbn [line_range line_stop line_formula]. rewrite <- Ef.
    split; [now rewrite Rg|]. split; [now rewrite St|]. split; [reflexivity|].
    intros L. unfold shorten.
    destruct (Nat.ltb_spec 60 (String.length (cf_formula cf))); [lia|reflexivity].
  - intros rn sr er r T N. unfold summary_line_of. rewrite T.
    destruct (formula r); try discriminate N; reflexivity.
Qed.

Lemma summary_line_matches_directive_witness :
  exists line,
    summary_line_of "13" 15 13 demo_reversed_rule = Ok line
    /\ line_range line = "C15:A13"
    /\ line_formula line = "=A13>0"
    /\ (String.length (line_formula line) <= 63)%nat.
Proof.
  destruct summary_line_matches_directive as [A [B _]].
  destruct (@emitted plain_library "13" 15 13 demo_reversed_rule) as [[rg cf]|] eqn:E.
  - destruct (B plain_library _ _ _ _ _ _ E) as [line [L [R [_ [F _]]]]].
    exists line. split; [exact L|].
    vm_compute in E. injection E as <- <-.
    split; [exact R|]. split; [exact F|]. exact (A _ _ _ _ _ L).
  - vm_compute in E. discriminate E.
Defined.

(** ** The rows the ranges span *)

Section Provenance.

Context {lib : Openpyxl}.
Variable row_number : string.
Variables start_row end_row : Z.
Variable wb0 : workbook.
Variable rules : list rule.

(** Every rule on a sheet of [wb] was on the sheet at the same place in
    [wb0], or is the directive of a record of [rules]. *)
Definition from_rules (wb : workbook) : Prop :=
  forall j s d,
    nth_error wb j = Some s -> In d (conditional_formatting s) ->
    (exists s0, nth_error wb0 j = Some s0 /\ In d (conditional_formatting s0))
    \/ (exists r, In r rules /\ emitted row_number start_row end_row r = Some d).

Lemma from_rules_alter (f : sheet -> sheet) (i : nat) (wb : workbook) :
  (forall s d,
      In d (conditional_formatting (f s)) ->
      In d (conditional_formatting s)
      \/ exists r, In r rules /\ emitted row_number start_row end_row r = Some d) ->
  from_rules wb -> from_rules (alter_sheet f i wb).
Proof.
  intros F P j s d J I. destruct (Nat.eq_dec i j) as [->|N].
  - rewrite alter_sheet_same in J. destruct (nth_error wb j) as [s1|] eqn:E; [|discriminate J].
    injection J as <-. destruct (F _ _ I) as [I1|R]; [|now right].
    exact (P j s1 d E I1).
  - rewrite (alter_sheet_other f i j wb N) in J. exact (P j s d J I).
Qed.

Lemma from_rules_new (wb : workbook) (t : string) :
  from_rules wb ->
  from_rules (wb ++ [{| title := t; conditional_formatting := [] |}])%list.
Proof.
  intros P j s d J I. destruct (Nat.lt_ge_cases j (List.length wb)) as [L|L].
  - rewrite nth_error_app1 in J by exact L. exact (P j s d J I).
  - rewrite nth_error_app2 in J by exact L.
    destruct (j - List.length wb)%nat as [|n]; cbn in J.
    + injection J as <-. destruct I.
    + destruct n; discriminate J.
Qed.

Lemma directives_emitted (rs : list rule) (d : string * cf_rule) :
  In d (directives row_number start_row end_row rs) ->
  exists r, In r rs /\ emitted row_number start_row end_row r = Some d.
Proof.
  unfold directives. intros I. apply in_flat_map in I. destruct I as [r [Ir Id]].
  exists r. split; [exact Ir|].
  destruct (emitted row_number start_row end_row r) as [x|]; [|destruct Id].
  destruct Id as [->|[]]. reflexivity.
Qed.

Lemma apply_sheet_from_rules (st st' : loop_state) (name : value) (rs : list rule) :
  (forall r, In r rs -> In r rules) ->
  from_rules (wb_new st) ->
  apply_sheet row_number start_row end_row st (name, rs) = Ok st' ->
  from_rules (wb_new st').
Proof.
  intros Sub P H. destruct (apply_sheet_inv _ _ _ _ _ _ _ H) as [ws [wb [G ->]]].
  cbn [wb_new]. apply from_rules_alter.
  - intros s d I. cbn [extend_sheet conditional_formatting] in I.
    apply in_app_or in I. destruct I as [I|I]; [now left|right].
    destruct (directives_emitted _ _ I) as [r [Ir E]]. exists r. split; [now apply Sub|exact E].
  - unfold get_or_create in G. destruct (sheet_index name (wb_new st)) as [i|].
    + injection G as <- <-. apply from_rules_alter; [|exact P].
      intros s d I. destruct I.
    + unfold create_sheet in G.
      destruct (new_title (sheetnames (wb_new st)) name) as [t|e]; cbn [bind] in G;
        [|discriminate G].
      injection G as <- <-. now apply from_rules_new.
Qed.

Lemma apply_sheets_from_rules (groups : list (value * list rule)) (st st' : loop_state) :
  (forall k rs r, In (k, rs) groups -> In r rs -> In r rules) ->
  from_rules (wb_new st) ->
  apply_sheets row_number start_row end_row st groups = Ok st' ->
  from_rules (wb_new st').
Proof.
  revert st. induction groups as [|[k rs] groups IH]; intros st Sub P H.
  - now injection H as <-.
  - cbn [apply_sheets] in H.
    destruct (apply_sheet row_number start_row end_row st (k, rs)) as [st1|e] eqn:E;
      cbn [bind] in H; [|discriminate].
    refine (IH st1 _ _ H).
    + intros k' rs' r I. apply (Sub k' rs' r). now right.
    + apply (apply_sheet_from_rules st st1 k rs); [|exact P|exact E].
      intros r I. apply (Sub k rs r); [now left|exact I].
Qed.

End Provenance.

(** The workbook a run starts from: the target in update mode, an empty
    workbook otherwise. *)
Definition initial_workbook (mode : string) (target_file : option workbook) : workbook :=
  if (mode =? "Update Existing File")%string
  then match target_file with
       | Some wb => wb
       | None => []
       end
  else [].

Lemma run_from_rules {lib : Openpyxl} (rules_file : rules_workbook)
      (target_file : option workbook) (row_number_input : option string)
      (first_row last_row : option Z) (mode : string) (out : result)
      (j : nat) (s : sheet) (range_string : string) (cf : cf_rule) :
  apply_cf_rules rules_file target_file row_number_input first_row last_row mode
  = Returned out ->
  nth_error (output out) j = Some s ->
  In (range_string, cf) (conditional_formatting s) ->
  (exists s0, nth_error (initial_workbook mode target_file) j = Some s0
              /\ In (range_string, cf) (conditional_formatting s0))
  \/ (exists r,
         In r (res_rules out)
         /\ range_string
            = (Py.str (start_col r) ++ Py.str_of_int (fst (row_range first_row last_row))
               ++ ":" ++ Py.str (end_col r)
               ++ Py.str_of_int (snd (row_range first_row last_row)))%string).
Proof.
  intros H J I. destruct (apply_cf_rules_inv _ _ _ _ _ _ _ H) as [rn [_ R]].
  destruct (run_rules_inv _ _ _ _ _ _ _ R) as [sh [rules [wb0 [st [_ [_ [T [A ->]]]]]]]].
  cbn [output res_rules] in *.
  assert (W : initial_workbook mode target_file = wb0).
  { unfold initial_workbook. destruct (mode =? "Update Existing File")%string.
    - now rewrite T.
    - now injection T as <-. }
  rewrite W.
  assert (P : from_rules rn (fst (row_range first_row last_row))
                (snd (row_range first_row last_row)) wb0 rules (wb_new st)).
  { apply (apply_sheets_from_rules _ _ _ _ _ (group_rules rules)
             {| wb_new := wb0; rules_applied := 0; rules_skipped := 0 |} st);
      [| |exact A].
    - intros k rs r Ik Ir. destruct (group_rules_ok rules) as [_ [G _]].
      destruct (G _ _ Ik) as [-> _]. unfold group_of in Ir.
      apply filter_In in Ir. tauto.
    - intros j' s' d J' I'. left. now exists s'. }
  destruct (P j s _ J I) as [L|[r [Ir E]]]; [now left|right].
  exists r. split; [exact Ir|]. now destruct (emitted_range_stop _ _ _ _ _ _ E).
Qed.

(** X16: every rule on a sheet of the workbook a run returns was on that
    sheet of the target before (update mode only), or has the range of a
    record of the table: start column, first row, colon, end column, last
    row when both rows are given and neither is 0; start column, 1, colon,
    end column, 1000 when one of the two rows is missing, also when the
    first row was given and replaced the placeholder. *)
Theorem attached_ranges_span_rows (lib : Openpyxl) (rules_file : rules_workbook)
        (target_file : option workbook) (row_number_input : option string)
        (first_row last_row : option Z) (mode : string) (out : result)
        (j : nat) (s : sheet) (range_string : string) (cf : cf_rule) :
  apply_cf_rules rules_file target_file row_number_input first_row last_row mode
  = Returned out ->
  nth_error (output out) j = Some s ->
  In (range_string, cf) (conditional_formatting s) ->
  (exists s0, nth_error (initial_workbook mode target_file) j = Some s0
              /\ In (range_string, cf) (conditional_formatting s0))
  \/ ((forall f l,
          first_row = Some f -> last_row = Some l -> f <> 0 -> l <> 0 ->
          exists r,
            In r (res_rules out)
            /\ range_string
               = (Py.str (start_col r) ++ Py.str_of_int f ++ ":"
                  ++ Py.str (end_col r) ++ Py.str_of_int l)%string)
      /\ (first_row = None \/ first_row = Some 0 \/ last_row = None \/ last_row = Some 0 ->
          exists r,
            In r (res_rules out)
            /\ range_string
               = (Py.str (start_col r) ++ "1" ++ ":" ++ Py.str (end_col r) ++ "1000")%string)).
Proof.
  intros H J I.
  destruct (run_from_rules _ _ _ _ _ _ _ _ _ _ _ H J I) as [L|[r [Ir E]]]; [now left|right].
  split.
  - intros f l Hf Hl Nf Nl. exists r. split; [exact Ir|].
    rewrite E, Hf, Hl. unfold row_range. cbn [some_nonzero truthy].
    destruct (Z.eqb_spec f 0); [contradiction|].
    destruct (Z.eqb_spec l 0); [contradiction|]. reflexivity.
  - intros M. exists r. split; [exact Ir|]. rewrite E.
    assert (R : row_range first_row last_row = (1, 1000)).
    { unfold row_range. destruct M as [-> | [-> | [-> | ->]]];
        cbn [some_nonzero truthy Z.eqb negb andb].
      - reflexivity.
      - now destruct last_row.
      - now destruct first_row.
      - destruct first_row as [f|]; [|reflexivity]. now rewrite andb_false_r. }
    rewrite R. reflexivity.
Qed.

Lemma attached_ranges_span_rows_witness :
  exists out s,
    @apply_cf_rules plain_library demo_rules None None (Some 13) None "Create New File"
    = Returned out
    /\ nth_error (output out) 0 = Some s
    /\ In ("A1:C1000",
           {| cf_formula := "=A13>0"; cf_stopIfTrue := true;
              cf_fill := Some "FF0000"; cf_font := None |}) (conditional_formatting s)
    /\ exists r,
         In r (res_rules out)
         /\ "A1:C1000"
            = (Py.str (start_col r) ++ "1" ++ ":" ++ Py.str (end_col r) ++ "1000")%string.
Proof.
  eexists. eexists. split; [vm_compute; reflexivity|]. split; [reflexivity|].
  split; [left; reflexivity|].
  destruct (attached_ranges_span_rows plain_library demo_rules None None (Some 13) None
              "Create New File" _ 0%nat _ "A1:C1000"
              {| cf_formula := "=A13>0"; cf_stopIfTrue := true;
                 cf_fill := Some "FF0000"; cf_font := None |}
              eq_refl eq_refl (or_introl eq_refl)) as [[s0 [N _]]|[_ M]].
  - discriminate N.
  - apply M. right. right. left. reflexivity.
Defined.
